(** * flask_pyquery: template lookup and rendering glue for Flask

    A shallow embedding of [flask_pyquery.py].  Python objects become records,
    dictionaries become finite maps, [raise] becomes the left injection of a
    sum, and the objects the module mutates (the extension object, the
    application, the list of sent signals) are threaded explicitly. *)

From Stdlib Require Import String Ascii List Bool Lia.
From stdpp Require Import base option list gmap strings.

Import ListNotations.
Local Open Scope string_scope.

(** ** Exceptions and the error monad *)

(** The exception classes the module raises itself or lets through. *)
Inductive exn : Type :=
  | RuntimeError (msg : string)
  | TemplateError (msg : string)
  | AttributeError (msg : string)
  | FileNotFoundError (msg : string)
  | KeyError (key : string)
  | TypeError (msg : string)
  | IndexError (msg : string)
  | ImportError (msg : string)
  | OSError (msg : string)
  | UserError (cls msg : string).

(** A Python expression either raises or yields a value. *)
Definition result (A : Type) : Type := (exn + A)%type.

Definition ret {A : Type} (a : A) : result A := inr a.
Definition raise {A : Type} (e : exn) : result A := inl e.

Definition bind {A B : Type} (m : result A) (k : A -> result B) : result B :=
  match m with
  | inl e => inl e
  | inr a => k a
  end.

Notation "x <- m ;; k" := (bind m (fun x => k))
  (at level 100, m at next level, right associativity).

(** [d[key]] on a dictionary. *)
Definition getitem {A : Type} (d : gmap string A) (key : string) : result A :=
  match d !! key with
  | Some v => ret v
  | None => raise (KeyError key)
  end.

(** [d.update(other)]: the entries of [other] replace those of [d]. *)
Definition dict_update {A : Type} (d other : gmap string A) : gmap string A :=
  other ∪ d.

(** [d.setdefault(key, v)], as a statement. *)
Definition setdefault {A : Type} (d : gmap string A) (key : string) (v : A)
  : gmap string A :=
  match d !! key with
  | Some _ => d
  | None => <[key := v]> d
  end.

(** [d.get(key, default)]. *)
Definition dict_get {A : Type} (d : gmap string A) (key : string) (dflt : A) : A :=
  match d !! key with
  | Some v => v
  | None => dflt
  end.

(** ** Paths and the file system *)

Definition startswith_sep (b : string) : bool :=
  match b with
  | String c _ => Ascii.eqb c "/"
  | EmptyString => false
  end.

Fixpoint endswith_sep (a : string) : bool :=
  match a with
  | EmptyString => false
  | String c EmptyString => Ascii.eqb c "/"
  | String _ rest => endswith_sep rest
  end.

(** [os.path.join(a, b)] of [posixpath]: an absolute [b] replaces [a]; a
    separator is inserted unless [a] is empty or already ends with one. *)
Definition os_path_join (a b : string) : string :=
  if startswith_sep b then b
  else if (String.eqb a "" || endswith_sep a)%bool then a +:+ b
  else a +:+ "/" +:+ b.

(** What the module asks of the operating system. *)
Record filesystem : Type := {
  os_path_exists : string -> bool;
  os_path_isfile : string -> bool;
  os_path_isdir : string -> bool;
  (** [open(path, 'r', encoding='utf-8')] followed by [fp.read()]. *)
  open_read : string -> result string
}.

(** ** Documents *)

Unset Elimination Schemes.
(** An lxml element: its tag, text and child elements. *)
Inductive Element : Type :=
  | Node (tag : string) (text : string) (children : list Element).
Set Elimination Schemes.

Definition tag (e : Element) : string :=
  match e with Node t _ _ => t end.

(** A [PyQuery] object is a list of elements. *)
Definition Doc : Type := list Element.

(** [doc[i]] on a list. *)
Definition item (doc : Doc) (i : nat) : result Element :=
  match doc !! i with
  | Some e => ret e
  | None => raise (IndexError "list index out of range")
  end.

(** The third-party functions the module calls and never inspects. *)
Class Libraries : Type := {
  (** [pyquery.PyQuery(source, parser='html')], which may raise *)
  PyQuery : string -> result Doc;
  (** [lxml.html.tostring(element, doctype=doctype)] *)
  tostring : Element -> string -> string;
  (** [repr] of a string, as [{!r}] formats it *)
  repr : string -> string
}.

(** ** The objects of the module *)

Section Model.

Context {value : Type} `{Libraries}.

(** What a name of the renderer module may be bound to: [None], something
    callable with [(doc, context)], or any other object (given by the name
    of its type). *)
Inductive attr : Type :=
  | PyNone
  | PyCallable (f : Doc -> gmap string value -> result Doc)
  | PyObject (type_name : string).

(** [func is None] *)
Definition is_None (func : attr) : bool :=
  match func with
  | PyNone => true
  | _ => false
  end.

(** [str(func)] where the module formats it; only [None] is ever formatted. *)
Definition str_attr (func : attr) : string :=
  match func with
  | PyNone => "None"
  | PyCallable _ => "<function>"
  | PyObject type_name => "<" +:+ type_name +:+ " object>"
  end.

(** [func(doc, context)] *)
Definition call (func : attr) (doc : Doc) (context : gmap string value)
  : result Doc :=
  match func with
  | PyCallable f => f doc context
  | PyNone => raise (TypeError "'NoneType' object is not callable")
  | PyObject type_name =>
      raise (TypeError ("'" +:+ type_name +:+ "' object is not callable"))
  end.

(** An imported module: its [str] and its namespace. *)
Record Module : Type := {
  mod_str : string;
  mod_dict : gmap string attr
}.

(** [getattr(module, name, None)] *)
Definition getattr (m : Module) (name : string) : attr :=
  dict_get (mod_dict m) name PyNone.

(** What the interpreter answers to [getattr(None, name, None)]: the object
    [None] has attributes of its own, [__class__] among them. *)
Class Interpreter : Type := {
  None_attribute : string -> attr
}.

Context `{Interpreter}.

(** [getattr(renderer_module, name, None)] on the [renderer_module]
    attribute of an extension object, which is a module or [None]. *)
Definition getattr_object (renderer_module : option Module) (name : string)
  : attr :=
  match renderer_module with
  | Some m => getattr m name
  | None => None_attribute name
  end.

(** [str(renderer_module)], as [{}] formats it. *)
Definition str_object (renderer_module : option Module) : string :=
  match renderer_module with
  | Some m => mod_str m
  | None => "None"
  end.

(** class [PyQueryTemplates]; [pq_app] holds the identity of the bound
    application.  The application's registry holds the object as it is
    when [init_app] registers it: no method changes it afterwards. *)
Record PyQueryTemplates : Type := {
  pq_app : option nat;
  pq_module_path : option string;
  pq_renderer_module : option Module
}.

(** The class attribute [PyQueryTemplates.doctype_names]. *)
Definition doctype_names : gmap string string :=
  {[ "html5" := "<!DOCTYPE html>" ]}.

(** class [Template] *)
Record Template : Type := {
  tpl_path : string;
  tpl_renderer : attr;
  tpl_kwargs : gmap string string
}.

(** class [TemplateLookup]; [tl_app] is the identity of the application it
    was built for. *)
Record TemplateLookup : Type := {
  tl_app : nat;
  tl_kwargs : gmap string string;
  tl_directories : list string
}.

(** A [template_folder] attribute: [None], one folder, or a list or tuple. *)
Inductive folder : Type :=
  | NoFolder
  | Folder (tf : string)
  | Folders (tfs : list string).

(** What the module reads of a Flask blueprint. *)
Record Blueprint : Type := {
  bp_root_path : string;
  bp_template_folder : folder
}.

(** What the module reads and writes of a Flask application.  An attribute
    that may be absent is an [option]; [app_blueprints] keeps registration
    order; [app_context_processors] lists what each context processor that
    applies returns, in call order. *)
Record App : Type := {
  app_id : nat;
  app_import_name : string;
  app_root_path : string;
  app_template_folder : folder;
  app_blueprints : option (list (string * Blueprint));
  app_extensions : option (gmap string PyQueryTemplates);
  app__pyquery_lookup : option (option TemplateLookup);
  app_config : gmap string string;
  app_jinja_globals : gmap string value;
  app_context_processors : list (gmap string value)
}.

(** The [template_rendered] signal as sent: sender and keyword arguments. *)
Record Signal : Type := {
  sig_sender : nat;
  sig_template : Template;
  sig_context : gmap string value
}.

(** What [render_template] works on: the top of the context stack (the
    application of the active context, if any) and the signals sent so far. *)
Record World : Type := {
  top : option App;
  sent : list Signal
}.

(** *** Attribute assignment *)

Definition set_extensions (app : App) (e : gmap string PyQueryTemplates) : App :=
  {| app_id := app_id app; app_import_name := app_import_name app;
     app_root_path := app_root_path app;
     app_template_folder := app_template_folder app;
     app_blueprints := app_blueprints app;
     app_extensions := Some e;
     app__pyquery_lookup := app__pyquery_lookup app;
     app_config := app_config app;
     app_jinja_globals := app_jinja_globals app;
     app_context_processors := app_context_processors app |}.

Definition set__pyquery_lookup (app : App) (l : option TemplateLookup) : App :=
  {| app_id := app_id app; app_import_name := app_import_name app;
     app_root_path := app_root_path app;
     app_template_folder := app_template_folder app;
     app_blueprints := app_blueprints app;
     app_extensions := app_extensions app;
     app__pyquery_lookup := Some l;
     app_config := app_config app;
     app_jinja_globals := app_jinja_globals app;
     app_context_processors := app_context_processors app |}.

Definition set_config (app : App) (c : gmap string string) : App :=
  {| app_id := app_id app; app_import_name := app_import_name app;
     app_root_path := app_root_path app;
     app_template_folder := app_template_folder app;
     app_blueprints := app_blueprints app;
     app_extensions := app_extensions app;
     app__pyquery_lookup := app__pyquery_lookup app;
     app_config := c;
     app_jinja_globals := app_jinja_globals app;
     app_context_processors := app_context_processors app |}.

(** ** [PyQueryTemplates] *)

(** The truth value of [self.app]: an application object is always true,
    [None] is false. *)
Definition bound (self : PyQueryTemplates) : bool :=
  match pq_app self with
  | Some _ => true
  | None => false
  end.

(** [PyQueryTemplates.init_app].  [import_module] stands for
    [importlib.import_module] in the state of the interpreter at the call.
    The result comes with the extension object and the application as the
    call leaves them, also when it raises. *)
Definition init_app (import_module : string -> result Module)
    (self : PyQueryTemplates) (app : App) (module_path : string)
  : result unit * (PyQueryTemplates * App) :=
  if bound self then
    (raise (RuntimeError
       ("Cannot call init_app when app argument was "
        +:+ "provided to PyQueryTemplates constructor.")),
     (self, app))
  else
    let self := {| pq_app := Some (app_id app);
                   pq_module_path := pq_module_path self;
                   pq_renderer_module := pq_renderer_module self |} in
    let self := {| pq_app := pq_app self;
                   pq_module_path := Some module_path;
                   pq_renderer_module := pq_renderer_module self |} in
    match import_module (app_import_name app +:+ "." +:+ module_path) with
    | inl e => (inl e, (self, app))
    | inr m =>
        let self := {| pq_app := pq_app self;
                       pq_module_path := pq_module_path self;
                       pq_renderer_module := Some m |} in
        let app :=
          match app_extensions app with
          | None => set_extensions app ∅
          | Some _ => app
          end in
        let app :=
          set_extensions app
            (<["pyquery" := self]> (default ∅ (app_extensions app))) in
        let app := set__pyquery_lookup app None in
        let app :=
          set_config app (setdefault (app_config app) "PYQUERY_DOCTYPE" "html5") in
        (ret tt, (self, app))
    end.

(** [PyQueryTemplates.__init__]: [PyQueryTemplates(app, module_path)].  When
    [init_app] raises, no object is returned. *)
Definition PyQueryTemplates__init__ (import_module : string -> result Module)
    (app : option App) (module_path : string)
  : result PyQueryTemplates * option App :=
  let self := {| pq_app := None; pq_module_path := None;
                 pq_renderer_module := None |} in
  match app with
  | Some app =>
      match init_app import_module self app module_path with
      | (inl e, (_, app)) => (inl e, Some app)
      | (inr _, (self, app)) => (ret self, Some app)
      end
  | None => (ret self, None)
  end.

(** ** [Template] *)

(** [Template.render]; [context] is the dictionary of its keyword arguments. *)
Definition render (fs : filesystem) (self : Template)
    (context : gmap string value) : result string :=
  source <- open_read fs (tpl_path self) ;;
  doc <- PyQuery source ;;
  doc <- call (tpl_renderer self) doc context ;;
  invalid <-
    (if negb (Nat.eqb (length doc) 1) then ret true
     else root <- item doc 0 ;; ret (negb (String.eqb (tag root) "html"))) ;;
  if (invalid : bool) then
    raise (TemplateError
      ("There should only be one root document "
       +:+ "and it should be an <html> tag"))
  else
    root <- item doc 0 ;;
    doctype <- getitem (tpl_kwargs self) "doctype" ;;
    ret (tostring root doctype).

(** ** [TemplateLookup] *)

(** The [for directory in self.directories] loop of [get_template]: the path
    of the first hit, if there is one. *)
Fixpoint search (fs : filesystem) (directories : list string)
    (filename : string) : option string :=
  match directories with
  | [] => None
  | directory :: rest =>
      let template_path := os_path_join directory filename in
      if os_path_exists fs template_path && os_path_isfile fs template_path
      then Some template_path
      else search fs rest filename
  end.

(** [TemplateLookup.get_template].  [app] is the state of the application
    [self.app] refers to. *)
Definition get_template (fs : filesystem) (self : TemplateLookup) (app : App)
    (template_name : string) : result Template :=
  extensions <-
    match app_extensions app with
    | Some e => ret e
    | None => raise (AttributeError "'Flask' object has no attribute 'extensions'")
    end ;;
  pq <- getitem extensions "pyquery" ;;
  let func := getattr_object (pq_renderer_module pq) template_name in
  if is_None func then
    raise (AttributeError
      ("No such renderer " +:+ str_attr func +:+ " in "
       +:+ str_object (pq_renderer_module pq)))
  else
    let filename := template_name +:+ ".html" in
    match search fs (tl_directories self) filename with
    | Some template_path =>
        ret {| tpl_path := template_path; tpl_renderer := func;
               tpl_kwargs := tl_kwargs self |}
    | None =>
        raise (FileNotFoundError ("No such template " +:+ repr filename))
    end.

(** ** Building and caching the lookup *)

(** The truth value of a [template_folder]: [None], the empty string and the
    empty list or tuple are false. *)
Definition truthy (tf : folder) : bool :=
  match tf with
  | NoFolder => false
  | Folder s => negb (String.eqb s "")
  | Folders [] => false
  | Folders (_ :: _) => true
  end.

(** The body of the loop over [blueprints.values()] in [_create_lookup]. *)
Definition add_blueprint (paths : list string) (blueprint : Blueprint)
  : list string :=
  let bp_tf := bp_template_folder blueprint in
  if truthy bp_tf then
    match bp_tf with
    | Folders tfs =>
        (paths ++ map (os_path_join (bp_root_path blueprint)) tfs)%list
    | Folder tf => (paths ++ [os_path_join (bp_root_path blueprint) tf])%list
    | NoFolder => paths
    end
  else paths.

(** [_create_lookup(app)] *)
Definition _create_lookup (fs : filesystem) (app : App) : result TemplateLookup :=
  extensions <-
    match app_extensions app with
    | Some e => ret e
    | None => raise (AttributeError "'Flask' object has no attribute 'extensions'")
    end ;;
  pq <- getitem extensions "pyquery" ;;
  doctype <- getitem (app_config app) "PYQUERY_DOCTYPE" ;;
  let kwargs : gmap string string :=
    {[ "doctype" := dict_get doctype_names doctype doctype ]} in
  paths <-
    match app_template_folder app with
    | Folders tfs => ret (map (os_path_join (app_root_path app)) tfs)
    | Folder tf => ret [os_path_join (app_root_path app) tf]
    | NoFolder =>
        raise (TypeError
          "expected str, bytes or os.PathLike object, not NoneType")
    end ;;
  let blueprints := default [] (app_blueprints app) in
  let paths := fold_left add_blueprint (map snd blueprints) paths in
  let paths := List.filter (os_path_isdir fs) paths in
  ret {| tl_app := app_id app; tl_kwargs := kwargs; tl_directories := paths |}.

(** [_lookup(app)]: the lookup, and the application as the call leaves it.
    A [TemplateLookup] object is always true, [None] is false. *)
Definition _lookup (fs : filesystem) (app : App) : result TemplateLookup * App :=
  match app__pyquery_lookup app with
  | None =>
      (raise (AttributeError "'Flask' object has no attribute '_pyquery_lookup'"),
       app)
  | Some (Some lookup) => (ret lookup, app)
  | Some None =>
      match _create_lookup fs app with
      | inl e => (inl e, app)
      | inr lookup => (ret lookup, set__pyquery_lookup app (Some lookup))
      end
  end.

(** ** Rendering *)

(** Flask's [Flask.update_template_context(context)], which this module calls
    and does not define: every context processor's dictionary is merged into
    [context] in call order, then the entries [context] had at the call are
    written back, so that they win. *)
Definition update_template_context (app : App) (context : gmap string value)
  : gmap string value :=
  let orig_ctx := context in
  let context := fold_left dict_update (app_context_processors app) context in
  dict_update context orig_ctx.

(** [_render(template, context, app)]: the value returned or the exception
    raised, and the signals sent once the call is over.  [render] declares
    [self] and takes [context] as keyword arguments, so a key [self] is a
    [TypeError] at the call. *)
Definition _render (fs : filesystem) (template : Template)
    (context : gmap string value) (app : App) (sent : list Signal)
  : result string * list Signal :=
  let context := dict_update context (app_jinja_globals app) in
  let context := update_template_context app context in
  let rv :=
    match context !! "self" with
    | Some _ =>
        raise (TypeError "render() got multiple values for argument 'self'")
    | None => render fs template context
    end in
  match rv with
  | inr rv =>
      (ret rv,
       (sent ++ [{| sig_sender := app_id app; sig_template := template;
                    sig_context := context |}])%list)
  | inl e => (inl e, sent)
  end.

(** [render_template]; [context] is the dictionary of its keyword arguments. *)
Definition render_template (fs : filesystem) (template_name : string)
    (context : gmap string value) (w : World) : result string * World :=
  match top w with
  | None =>
      (raise (AttributeError "'NoneType' object has no attribute 'app'"), w)
  | Some app =>
      let '(lookup, app) := _lookup fs app in
      match lookup with
      | inl e => (inl e, {| top := Some app; sent := sent w |})
      | inr lookup =>
          match get_template fs lookup app template_name with
          | inl e => (inl e, {| top := Some app; sent := sent w |})
          | inr template =>
              let '(rv, sent) := _render fs template context app (sent w) in
              (rv, {| top := Some app; sent := sent |})
          end
      end
  end.

End Model.

Arguments attr : clear implicits.
Arguments Module : clear implicits.
Arguments Interpreter : clear implicits.
Arguments PyQueryTemplates : clear implicits.
Arguments Template : clear implicits.
Arguments App : clear implicits.
Arguments Signal : clear implicits.
Arguments World : clear implicits.

(** ** The search order in the words of the specification *)

(** A folder declaration resolved against a root path. *)
Definition resolved (root_path : string) (tf : folder) : list string :=
  match tf with
  | NoFolder => []
  | Folder s => [os_path_join root_path s]
  | Folders tfs => map (os_path_join root_path) tfs
  end.

(** The folders of one blueprint, none when it has no template folder
    ([None], or an empty string, list or tuple). *)
Definition blueprint_folders (blueprint : Blueprint) : list string :=
  if truthy (bp_template_folder blueprint)
  then resolved (bp_root_path blueprint) (bp_template_folder blueprint)
  else [].

(** The application's folders, then each blueprint's in registration order,
    with everything that is not an existing directory removed. *)
Definition search_order {value : Type} (fs : filesystem) (app : App value)
  : list string :=
  List.filter (os_path_isdir fs)
    (resolved (app_root_path app) (app_template_folder app)
     ++ concat (map (fun b => blueprint_folders (snd b))
                  (default [] (app_blueprints app))))%list.

(** The test of the loop in [get_template]: the path
    [os.path.join(directory, filename)] exists and is a regular file. *)
Definition file_at_join (fs : filesystem) (directory filename : string) : bool :=
  os_path_exists fs (os_path_join directory filename)
  && os_path_isfile fs (os_path_join directory filename).

(** The path of the entry [filename] inside [directory]. *)
Definition inside (directory filename : string) : string :=
  if (String.eqb directory "" || endswith_sep directory)%bool
  then directory +:+ filename
  else directory +:+ "/" +:+ filename.

(** Layers of a context merged so that a later layer wins on a shared key. *)
Definition merged {value : Type} (layers : list (gmap string value))
  : gmap string value :=
  fold_left dict_update layers ∅.

(** The context [_render] hands to [Template.render] and to the signal. *)
Definition final_context {value : Type} (app : App value)
    (context : gmap string value) : gmap string value :=
  update_template_context app (dict_update context (app_jinja_globals app)).

(** Successive calls of [_lookup] on one application, one for each state of
    the disk in [disks]: what each call returns, and the application after
    the last. *)
Fixpoint lookups {value : Type} (disks : list filesystem) (app : App value)
  : list (result TemplateLookup) * App value :=
  match disks with
  | [] => ([], app)
  | fs :: rest =>
      let '(r, app) := _lookup fs app in
      let '(rs, app) := lookups rest app in
      (r :: rs, app)
  end.

(** The doctype [_create_lookup] stores for a configured value. *)
Definition doctype_for (doctype : string) : string :=
  if String.eqb doctype "html5" then "<!DOCTYPE html>" else doctype.

(** ** A small shop application, used to run the model *)

Module Shop.

(** Stand-ins for the parser, the serializer and [repr]: the parsed document
    is one [html] element holding the source text. *)
Definition libraries : Libraries :=
  {| PyQuery := fun source => ret [Node "html" source []];
     tostring := fun root doctype => doctype +:+ "<" +:+ tag root +:+ ">";
     repr := fun s => "'" +:+ s +:+ "'" |}.

(** A stand-in for the attributes of [None]: its class, which takes no
    arguments. *)
Definition interpreter : Interpreter string :=
  {| None_attribute := fun name =>
       if String.eqb name "__class__"
       then PyCallable (fun _ _ =>
              raise (TypeError "NoneType takes no arguments"))
       else PyNone |}.

Definition one_of (paths : list string) (p : string) : bool :=
  existsb (String.eqb p) paths.

Definition files : list string :=
  ["/srv/shop/templates/index.html";
   "/srv/shop/admin/templates/index.html";
   "/srv/shop/admin/templates/report.html";
   "/srv/shop/admin/templates/__doc__.html";
   "/srv/shop/blog/themes/report.html"].

Definition directories : list string :=
  ["/srv/shop"; "/srv/shop/templates"; "/srv/shop/admin";
   "/srv/shop/admin/templates"; "/srv/shop/blog"; "/srv/shop/blog/themes"].

(** A disk with three template directories; [/srv/shop/blog/templates] does
    not exist. *)
Definition disk : filesystem :=
  {| os_path_exists := one_of (files ++ directories);
     os_path_isfile := one_of files;
     os_path_isdir := one_of directories;
     open_read := fun p =>
       if one_of files p then ret "<html><body></body></html>"
       else raise (FileNotFoundError p) |}.

(** The same machine after everything was removed. *)
Definition wiped : filesystem :=
  {| os_path_exists := fun _ => false;
     os_path_isfile := fun _ => false;
     os_path_isdir := fun _ => false;
     open_read := fun p => raise (FileNotFoundError p) |}.

(** Renderers: one keeps the document, one returns two roots, one returns a
    [body] root. *)
Definition index : attr string := PyCallable (fun doc _ => ret doc).
Definition twins : attr string :=
  PyCallable (fun doc _ => ret (doc ++ doc)%list).
Definition fragment : attr string :=
  PyCallable (fun _ _ => ret [Node "body" "" []]).

(** The renderer module [shop.renderer]; it has no docstring, so its
    [__doc__] is [None]. *)
Definition renderer : Module string :=
  {| mod_str := "<module 'shop.renderer'>";
     mod_dict :=
       <["index" := index]> (<["report" := index]> (<["twins" := twins]>
         (<["fragment" := fragment]> {[ "__doc__" := PyNone ]}))) |}.

Definition import_module (name : string) : result (Module string) :=
  if String.eqb name "shop.renderer" then ret renderer
  else raise (ImportError ("No module named " +:+ name)).

(** The application before the extension is initialised. *)
Definition app : App string :=
  {| app_id := 1;
     app_import_name := "shop";
     app_root_path := "/srv/shop";
     app_template_folder := Folder "templates";
     app_blueprints :=
       Some [("api", {| bp_root_path := "/srv/shop/api";
                         bp_template_folder := NoFolder |});
             ("admin", {| bp_root_path := "/srv/shop/admin";
                          bp_template_folder := Folder "templates" |});
             ("blog", {| bp_root_path := "/srv/shop/blog";
                         bp_template_folder :=
                           Folders ["templates"; "themes"] |})];
     app_extensions := Some ∅;
     app__pyquery_lookup := None;
     app_config := ∅;
     app_jinja_globals := <["title" := "Shop"]> {[ "site" := "shop.example" ]};
     app_context_processors := [ {[ "user" := "guest" ]} ] |}.

(** A fresh extension object, [PyQueryTemplates()]. *)
Definition fresh : PyQueryTemplates string :=
  {| pq_app := None; pq_module_path := None; pq_renderer_module := None |}.

(** The extension object and the application after
    [fresh.init_app(app)]. *)
Definition pq : PyQueryTemplates string :=
  fst (snd (init_app import_module fresh app "renderer")).
Definition app1 : App string :=
  snd (snd (init_app import_module fresh app "renderer")).

(** The extension registry of [app1]. *)
Definition registry : gmap string (PyQueryTemplates string) :=
  {[ "pyquery" := pq ]}.

(** The application with another doctype configured. *)
Definition custom : App string :=
  set_config app1 {[ "PYQUERY_DOCTYPE" := "custom-doctype" ]}.

(** The lookup [_create_lookup] builds for [app1] on [disk], and the
    application after its first lookup. *)
Definition lookup : TemplateLookup :=
  {| tl_app := 1;
     tl_kwargs := {[ "doctype" := "<!DOCTYPE html>" ]};
     tl_directories :=
       ["/srv/shop/templates"; "/srv/shop/admin/templates";
        "/srv/shop/blog/themes"] |}.
Definition app2 : App string := set__pyquery_lookup app1 (Some lookup).

(** The caller's keyword arguments. *)
Definition caller : gmap string string :=
  <["title" := "Cart"]> {[ "items" := "3" ]}.

Definition template (func : attr string) : Template string :=
  {| tpl_path := "/srv/shop/templates/index.html"; tpl_renderer := func;
     tpl_kwargs := {[ "doctype" := "<!DOCTYPE html>" ]} |}.

End Shop.

(** ** Further situations of the shop application *)

Module Cases.

(** A renderer module with an attribute whose name is an absolute path, as
    [setattr] can create. *)
Definition odd_renderer : Module string :=
  {| mod_str := "<module 'shop.odd'>";
     mod_dict := {[ "/srv/shop/templates/index" := Shop.index ]} |}.

(** [Shop.app1] with that module registered instead. *)
Definition odd_app : App string :=
  set_extensions Shop.app1
    {[ "pyquery" := {| pq_app := Some 1; pq_module_path := Some "odd";
                       pq_renderer_module := Some odd_renderer |} ]}.

(** A lookup whose only directory holds no template. *)
Definition elsewhere : TemplateLookup :=
  {| tl_app := 1;
     tl_kwargs := {[ "doctype" := "<!DOCTYPE html>" ]};
     tl_directories := ["/srv/shop/blog/themes"] |}.

(** [Shop.app2], lookup cached, after the configuration, the template
    folder and the blueprints were changed. *)
Definition reconfigured : App string :=
  {| app_id := 1;
     app_import_name := "shop";
     app_root_path := "/srv/moved";
     app_template_folder := NoFolder;
     app_blueprints := None;
     app_extensions := app_extensions Shop.app2;
     app__pyquery_lookup := app__pyquery_lookup Shop.app2;
     app_config := {[ "PYQUERY_DOCTYPE" := "custom-doctype" ]};
     app_jinja_globals := app_jinja_globals Shop.app2;
     app_context_processors := app_context_processors Shop.app2 |}.

(** An application that already carries another extension, an explicit
    doctype and a lookup cached by an earlier extension object. *)
Definition busy : App string :=
  {| app_id := 2;
     app_import_name := "shop";
     app_root_path := "/srv/shop";
     app_template_folder := Folders ["templates"; "missing"];
     app_blueprints := None;
     app_extensions := Some {[ "sqlalchemy" := Shop.fresh ]};
     app__pyquery_lookup := Some (Some elsewhere);
     app_config :=
       <["PYQUERY_DOCTYPE" := "custom-doctype"]> {[ "DEBUG" := "1" ]};
     app_jinja_globals := ∅;
     app_context_processors := [] |}.

(** [Shop.app1] with an extension object registered that was never
    initialised: its [renderer_module] is [None]. *)
Definition unbound_app : App string :=
  set_extensions Shop.app1 {[ "pyquery" := Shop.fresh ]}.

(** Keyword arguments with a key [self]. *)
Definition selfish : gmap string string := {[ "self" := "me" ]}.

(** An application whose second context processor overrides the first. *)
Definition layered : App string :=
  {| app_id := 3;
     app_import_name := "shop";
     app_root_path := "/srv/shop";
     app_template_folder := Folder "templates";
     app_blueprints := None;
     app_extensions := Some ∅;
     app__pyquery_lookup := None;
     app_config := ∅;
     app_jinja_globals := {[ "site" := "shop.example" ]};
     app_context_processors :=
       [ {[ "user" := "guest" ]};
         <["user" := "admin"]> {[ "site" := "intranet" ]} ] |}.

End Cases.

(** * Properties *)

Section Properties.

Context {value : Type} `{Libraries} `{!Interpreter value}.

Implicit Types (fs : filesystem) (app : App value) (name filename : string).
Implicit Types (context : gmap string value) (m : Module value).

(** ** The directory scan *)

Lemma search_None fs directories filename :
  search fs directories filename = None
  <-> forall d, d ∈ directories -> file_at_join fs d filename = false.
Proof.
  unfold file_at_join. induction directories as [|d ds IH]; simpl.
  - split; [intros _ d Hd; inversion Hd | reflexivity].
  - destruct (os_path_exists fs (os_path_join d filename)
              && os_path_isfile fs (os_path_join d filename)) eqn:E.
    + split; [discriminate |].
      intros Hall. specialize (Hall d (list_elem_of_here d ds)).
      congruence.
    + rewrite IH. split.
      * intros Hall d' Hd'. apply elem_of_cons in Hd' as [-> | Hd']; auto.
      * intros Hall d' Hd'. apply Hall. by apply list_elem_of_further.
Qed.

Lemma search_first fs before d after filename :
  (forall d', d' ∈ before -> file_at_join fs d' filename = false) ->
  file_at_join fs d filename = true ->
  search fs (before ++ d :: after) filename = Some (os_path_join d filename).
Proof.
  unfold file_at_join. intros Hbefore Hd.
  induction before as [|b bs IH]; simpl.
  - by rewrite Hd.
  - rewrite (Hbefore b (list_elem_of_here b bs)).
    apply IH. intros d' Hd'. apply Hbefore. by apply list_elem_of_further.
Qed.

Lemma search_Some fs directories filename :
  (exists d, d ∈ directories /\ file_at_join fs d filename = true)
  -> exists p, search fs directories filename = Some p.
Proof.
  intros (d & Hd & Hfile).
  destruct (search fs directories filename) as [p|] eqn:E; [by exists p |].
  rewrite search_None in E. rewrite (E d Hd) in Hfile. discriminate.
Qed.

(** ** Resolving a template name *)

(** What [get_template] does once the extension and its module are found. *)
Lemma get_template_unfold fs (self : TemplateLookup) app exts pq m name :
  app_extensions app = Some exts ->
  exts !! "pyquery" = Some pq ->
  pq_renderer_module pq = Some m ->
  get_template fs self app name =
    if is_None (getattr m name) then
      raise (AttributeError
        ("No such renderer " +:+ str_attr (getattr m name) +:+ " in "
         +:+ mod_str m))
    else
      match search fs (tl_directories self) (name +:+ ".html") with
      | Some template_path =>
          ret {| tpl_path := template_path; tpl_renderer := getattr m name;
                 tpl_kwargs := tl_kwargs self |}
      | None =>
          raise (FileNotFoundError
            ("No such template " +:+ repr (name +:+ ".html")))
      end.
Proof.
  intros Hexts Hpq Hm. unfold get_template, getitem.
  rewrite Hexts. simpl. rewrite Hpq. simpl. by rewrite Hm.
Qed.

Lemma getattr_None m name :
  getattr m name = PyNone
  <-> mod_dict m !! name = None \/ mod_dict m !! name = Some PyNone.
Proof.
  unfold getattr, dict_get. destruct (mod_dict m !! name) as [a|].
  - split; [intros ->; by right | intros [? | ?]; congruence].
  - split; [by left | done].
Qed.

Lemma getattr_not_None m name :
  is_None (getattr m name) = false
  <-> exists func, mod_dict m !! name = Some func /\ func <> PyNone.
Proof.
  unfold getattr, dict_get. destruct (mod_dict m !! name) as [a|]; simpl.
  - split.
    + intros Ha. exists a. split; [done |]. intros ->. discriminate.
    + intros (func & [= <-] & Hne). by destruct a.
  - split; [discriminate | intros (func & ? & _); discriminate].
Qed.

Lemma is_None_true (func : attr value) : is_None func = true <-> func = PyNone.
Proof. destruct func; simpl; split; congruence. Qed.

(** C10: the renderer attribute is resolved before any directory is
    searched.  For a name the renderer module does not define,
    [get_template] raises [AttributeError] whatever the search directories
    and the disk hold, so also when the template file is missing too; and
    the message reads [No such renderer None in <module>]: it interpolates
    the failed lookup's [None], not the requested name. *)
Theorem missing_renderer_reported_first
    fs (self : TemplateLookup) app exts pq m name :
  app_extensions app = Some exts ->
  exts !! "pyquery" = Some pq ->
  pq_renderer_module pq = Some m ->
  mod_dict m !! name = None ->
  get_template fs self app name
  = inl (AttributeError ("No such renderer None in " +:+ mod_str m)).
Proof.
  intros Hexts Hpq Hm Hname.
  rewrite (get_template_unfold _ _ _ _ _ _ _ Hexts Hpq Hm).
  assert (getattr m name = PyNone) as -> by (apply getattr_None; by left).
  reflexivity.
Qed.

Lemma startswith_sep_filename name :
  startswith_sep (name +:+ ".html") = startswith_sep name.
Proof. by destruct name. Qed.

Lemma os_path_join_relative (a b : string) :
  startswith_sep b = false -> os_path_join a b = inside a b.
Proof. intros Hb. unfold os_path_join, inside. by rewrite Hb. Qed.

Lemma os_path_join_absolute (a b : string) :
  startswith_sep b = true -> os_path_join a b = b.
Proof. intros Hb. unfold os_path_join. by rewrite Hb. Qed.

(** C3, amended: with the extension registered and its module imported,
    [get_template] raises the "no such renderer" [AttributeError] exactly
    when the module has no attribute of that name or binds the name to
    [None]; it raises the "no such template" [FileNotFoundError] exactly when
    the name is bound to something other than [None] and for no search
    directory [d] the path [os.path.join(d, <name>.html)] is an existing
    regular file; and it returns a [Template] when the name is bound to
    something other than [None] and for some search directory that path is
    an existing regular file.  For a name that does not start with a
    separator that path is the path of [<name>.html] inside [d]; for a name
    that starts with one it is [<name>.html] itself, whatever [d] is. *)
Theorem get_template_outcomes fs (self : TemplateLookup) app exts pq m name :
  app_extensions app = Some exts ->
  exts !! "pyquery" = Some pq ->
  pq_renderer_module pq = Some m ->
  ((exists msg, get_template fs self app name = inl (AttributeError msg))
   <-> (mod_dict m !! name = None \/ mod_dict m !! name = Some PyNone))
  /\ ((exists msg, get_template fs self app name = inl (FileNotFoundError msg))
      <-> ((exists func, mod_dict m !! name = Some func /\ func <> PyNone)
           /\ forall d, d ∈ tl_directories self ->
                 file_at_join fs d (name +:+ ".html") = false))
  /\ ((exists func, mod_dict m !! name = Some func /\ func <> PyNone) ->
      (exists d, d ∈ tl_directories self
                 /\ file_at_join fs d (name +:+ ".html") = true) ->
      exists template, get_template fs self app name = inr template)
  /\ (startswith_sep name = false ->
      forall d, os_path_join d (name +:+ ".html") = inside d (name +:+ ".html"))
  /\ (startswith_sep name = true ->
      forall d, os_path_join d (name +:+ ".html") = name +:+ ".html").
Proof.
  intros Hexts Hpq Hm.
  rewrite (get_template_unfold _ _ _ _ _ _ _ Hexts Hpq Hm).
  rewrite <- getattr_None, <- getattr_not_None, <- search_None.
  assert ((startswith_sep name = false ->
           forall d, os_path_join d (name +:+ ".html")
                     = inside d (name +:+ ".html"))
          /\ (startswith_sep name = true ->
              forall d, os_path_join d (name +:+ ".html") = name +:+ ".html"))
    as Hjoin.
  { split; intros Hname d.
    - apply os_path_join_relative. by rewrite startswith_sep_filename.
    - apply os_path_join_absolute. by rewrite startswith_sep_filename. }
  destruct (is_None (getattr m name)) eqn:Hnone.
  - apply is_None_true in Hnone as Hfunc.
    split; [| split; [| split]].
    + split; [done | intros _; eexists; reflexivity].
    + split; [intros [msg Hmsg] | intros [Hfalse _]]; discriminate.
    + discriminate.
    + exact Hjoin.
  - assert (getattr m name <> PyNone) as Hfunc.
    { intros Heq. rewrite Heq in Hnone. discriminate. }
    destruct (search fs (tl_directories self) (name +:+ ".html"))
      as [p|] eqn:Hsearch.
    + split; [| split; [| split]].
      * split; [intros [msg Hmsg]; discriminate | done].
      * split; [intros [msg Hmsg] | intros [_ Hfalse]]; discriminate.
      * intros _ _. eexists. reflexivity.
      * exact Hjoin.
    + split; [| split; [| split]].
      * split; [intros [msg Hmsg]; discriminate | done].
      * split; [done | intros _; eexists; reflexivity].
      * intros _ Hd. apply search_Some in Hd as [p Hp]. congruence.
      * exact Hjoin.
Qed.

(** C4, amended: the search directories are scanned in list order and the
    first match wins.  For a name the renderer module binds to something
    other than [None]: when for no directory before [d] in the list the path
    [os.path.join(d', <name>.html)] is an existing regular file and for [d]
    it is, the [Template] returned has the path [os.path.join(d,
    <name>.html)], whatever the directories after [d] hold; and for a name
    that does not start with a separator that path is the path of
    [<name>.html] inside [d]. *)
Theorem get_template_first_match
    fs (self : TemplateLookup) app exts pq m name func before d after :
  app_extensions app = Some exts ->
  exts !! "pyquery" = Some pq ->
  pq_renderer_module pq = Some m ->
  mod_dict m !! name = Some func ->
  func <> PyNone ->
  tl_directories self = (before ++ d :: after)%list ->
  (forall d', d' ∈ before -> file_at_join fs d' (name +:+ ".html") = false) ->
  file_at_join fs d (name +:+ ".html") = true ->
  get_template fs self app name
  = inr {| tpl_path := os_path_join d (name +:+ ".html");
           tpl_renderer := func;
           tpl_kwargs := tl_kwargs self |}
  /\ (startswith_sep name = false ->
      os_path_join d (name +:+ ".html") = inside d (name +:+ ".html")).
Proof.
  intros Hexts Hpq Hm Hname Hfunc Hdirs Hbefore Hd. split.
  - rewrite (get_template_unfold _ _ _ _ _ _ _ Hexts Hpq Hm).
    assert (getattr m name = func) as ->.
    { unfold getattr, dict_get. by rewrite Hname. }
    assert (is_None func = false) as -> by (by destruct func).
    rewrite Hdirs, (search_first _ _ _ _ _ Hbefore Hd). reflexivity.
  - intros Hrel. apply os_path_join_relative.
    by rewrite startswith_sep_filename.
Qed.

(** ** Rendering a template *)

(** C2: once the file is read and parsed and the renderer has returned a
    document,
    [Template.render] raises [TemplateError], and so returns no bytes, when
    the document has a number of top-level elements other than one or its
    only top-level element is not tagged [html]; with exactly one top-level
    element tagged [html] it raises no [TemplateError]: it goes on to
    serialize that element with the doctype of its options. *)
Theorem render_root_check
    fs (self : Template value) context source parsed doc :
  open_read fs (tpl_path self) = inr source ->
  PyQuery source = inr parsed ->
  call (tpl_renderer self) parsed context = inr doc ->
  ((length doc <> 1 \/ (exists root, doc = [root] /\ tag root <> "html")) ->
   render fs self context
   = inl (TemplateError
            "There should only be one root document and it should be an <html> tag"))
  /\ (forall root, doc = [root] -> tag root = "html" ->
      render fs self context
      = (doctype <- getitem (tpl_kwargs self) "doctype" ;;
         ret (tostring root doctype))
      /\ forall msg, render fs self context <> inl (TemplateError msg)).
Proof.
  intros Hread Hparse Hcall. unfold render.
  rewrite Hread. simpl. rewrite Hparse. simpl. rewrite Hcall. simpl.
  split.
  - intros [Hlen | (root & -> & Htag)].
    + destruct (Nat.eqb_spec (length doc) 1) as [Heq | Hne]; [done |].
      reflexivity.
    + simpl. destruct (String.eqb_spec (tag root) "html") as [Heq | Hne];
        [done | reflexivity].
  - intros root -> Htag. simpl. rewrite Htag. simpl.
    split; [reflexivity |].
    intros msg. unfold getitem. destruct (tpl_kwargs self !! "doctype"); discriminate.
Qed.

(** [_render] in terms of the final context. *)
Lemma _render_unfold fs (template : Template value) context app sent :
  _render fs template context app sent =
    let rv :=
      match final_context app context !! "self" with
      | Some _ =>
          raise (TypeError "render() got multiple values for argument 'self'")
      | None => render fs template (final_context app context)
      end in
    (rv,
     match rv with
     | inr _ =>
         (sent ++ [{| sig_sender := app_id app; sig_template := template;
                      sig_context := final_context app context |}])%list
     | inl _ => sent
     end).
Proof.
  unfold _render, final_context. simpl.
  destruct (update_template_context app
              (dict_update context (app_jinja_globals app)) !! "self");
    [reflexivity |].
  by destruct (render fs template _).
Qed.

(** C9: [_render] returns or raises exactly what the call of
    [Template.render] on the final context returns or raises, and the
    [template_rendered] signal is sent, with the template and the final
    context, exactly when that call returns.  [render_template] adds nothing
    to that: without an active context it raises and sends nothing; an
    exception of [_lookup] or of [get_template] is raised as it is and no
    signal is sent; otherwise it returns or raises exactly what
    the call of [Template.render] on the resolved template and the final
    context returns or raises, and the signals after the call are the
    signals before it followed, only when that call returned, by one signal
    carrying the resolved template and the final context. *)
Theorem template_rendered_iff_success fs name context :
  (forall (template : Template value) app sent,
     let rv :=
       match final_context app context !! "self" with
       | Some _ =>
           raise (TypeError "render() got multiple values for argument 'self'")
       | None => render fs template (final_context app context)
       end in
     fst (_render fs template context app sent) = rv
     /\ ((exists bytes, rv = inr bytes)
         /\ snd (_render fs template context app sent)
            = (sent ++ [{| sig_sender := app_id app; sig_template := template;
                           sig_context := final_context app context |}])%list
         \/ (exists e, rv = inl e)
            /\ snd (_render fs template context app sent) = sent))
  /\ (forall w : World value,
       top w = None ->
       render_template fs name context w
       = (inl (AttributeError "'NoneType' object has no attribute 'app'"), w))
  /\ (forall (w : World value) app0 app e,
       top w = Some app0 ->
       _lookup fs app0 = (inl e, app) ->
       render_template fs name context w
       = (inl e, {| top := Some app; sent := sent w |}))
  /\ (forall (w : World value) app0 app lookup e,
       top w = Some app0 ->
       _lookup fs app0 = (inr lookup, app) ->
       get_template fs lookup app name = inl e ->
       render_template fs name context w
       = (inl e, {| top := Some app; sent := sent w |}))
  /\ (forall (w : World value) app0 app lookup template,
       top w = Some app0 ->
       _lookup fs app0 = (inr lookup, app) ->
       get_template fs lookup app name = inr template ->
       let rv :=
         match final_context app context !! "self" with
         | Some _ =>
             raise (TypeError
                      "render() got multiple values for argument 'self'")
         | None => render fs template (final_context app context)
         end in
       render_template fs name context w
       = (rv,
          {| top := Some app;
             sent :=
               match rv with
               | inr _ =>
                   (sent w ++ [{| sig_sender := app_id app;
                                  sig_template := template;
                                  sig_context := final_context app context |}])%list
               | inl _ => sent w
               end |})).
Proof.
  split; [| split; [| split; [| split]]].
  - intros template app sent0. rewrite _render_unfold. simpl. split; [done |].
    destruct (match final_context app context !! "self" with
              | Some _ => _ | None => _ end) as [e | bytes].
    + right. eauto.
    + left. eauto.
  - intros w Htop. unfold render_template. by rewrite Htop.
  - intros w app0 app e Htop Hlookup. unfold render_template.
    by rewrite Htop, Hlookup.
  - intros w app0 app lookup e Htop Hlookup Hget. unfold render_template.
    by rewrite Htop, Hlookup, Hget.
  - intros w app0 app lookup template Htop Hlookup Hget. unfold render_template.
    rewrite Htop, Hlookup, Hget, _render_unfold. reflexivity.
Qed.

(** ** The merged context *)

Lemma fold_update_union (layers : list (gmap string value)) context :
  fold_left dict_update layers context
  = fold_left dict_update layers ∅ ∪ context.
Proof.
  revert context. induction layers as [|layer layers IH]; intros context; simpl.
  - by rewrite (left_id_L ∅ (∪)).
  - rewrite IH, (IH (dict_update ∅ layer)). unfold dict_update.
    by rewrite (right_id_L ∅ (∪)), (assoc_L (∪)).
Qed.

Lemma union_absorb (c p : gmap string value) : c ∪ (p ∪ c) = c ∪ p.
Proof.
  apply map_eq. intros k. rewrite !lookup_union.
  by destruct (c !! k), (p !! k).
Qed.

(** C1, amended: the context [_render] hands to the renderer and sends with
    the signal is merged with this precedence, later winning on a shared
    key: the context processors' contributions in call order, then the
    caller's keyword context, then the application-wide template globals.
    So a key of the template globals keeps the globals' value, also when the
    caller passed the same key, and a caller's key that is no key of the
    globals keeps the caller's value. *)
Theorem final_context_precedence app context :
  final_context app context
  = merged (app_context_processors app ++ [context; app_jinja_globals app])
  /\ (forall k v, app_jinja_globals app !! k = Some v ->
      final_context app context !! k = Some v)
  /\ (forall k v, app_jinja_globals app !! k = None -> context !! k = Some v ->
      final_context app context !! k = Some v)
  /\ (forall fs (template : Template value) sent bytes,
      fst (_render fs template context app sent) = inr bytes ->
      render fs template (final_context app context) = inr bytes
      /\ snd (_render fs template context app sent)
         = (sent ++ [{| sig_sender := app_id app; sig_template := template;
                        sig_context := final_context app context |}])%list).
Proof.
  assert (final_context app context
          = app_jinja_globals app
            ∪ (context ∪ fold_left dict_update (app_context_processors app) ∅))
    as Hfinal.
  { unfold final_context, update_template_context.
    rewrite fold_update_union. unfold dict_update.
    by rewrite union_absorb, (assoc_L (∪)). }
  split; [| split; [| split]].
  - rewrite Hfinal. unfold merged. by rewrite fold_left_app.
  - intros k v Hk. rewrite Hfinal. by apply lookup_union_Some_l.
  - intros k v Hglobals Hk. rewrite Hfinal.
    rewrite lookup_union_r by done. by apply lookup_union_Some_l.
  - intros fs template sent0 bytes. rewrite _render_unfold. simpl.
    destruct (final_context app context !! "self"); [discriminate |].
    intros Hrender. by rewrite Hrender.
Qed.

(** ** The search order *)

Lemma add_blueprint_app (paths : list string) (blueprint : Blueprint) :
  add_blueprint paths blueprint = (paths ++ blueprint_folders blueprint)%list.
Proof.
  unfold add_blueprint, blueprint_folders, resolved.
  destruct (bp_template_folder blueprint) as [| tf | tfs]; simpl.
  - by rewrite app_nil_r.
  - destruct (negb (String.eqb tf "")); [done | by rewrite app_nil_r].
  - destruct tfs; [by rewrite app_nil_r | done].
Qed.

Lemma fold_add_blueprint (blueprints : list Blueprint) (paths : list string) :
  fold_left add_blueprint blueprints paths
  = (paths ++ concat (map blueprint_folders blueprints))%list.
Proof.
  revert paths. induction blueprints as [|b bs IH]; intros paths; simpl.
  - by rewrite app_nil_r.
  - by rewrite IH, add_blueprint_app, <- app_assoc.
Qed.

(** [_create_lookup] when nothing it reads is missing. *)
Lemma _create_lookup_unfold fs app exts pq doctype :
  app_extensions app = Some exts ->
  exts !! "pyquery" = Some pq ->
  app_config app !! "PYQUERY_DOCTYPE" = Some doctype ->
  app_template_folder app <> NoFolder ->
  _create_lookup fs app
  = inr {| tl_app := app_id app;
           tl_kwargs := {[ "doctype" := doctype_for doctype ]};
           tl_directories := search_order fs app |}.
Proof.
  intros Hexts Hpq Hcfg Htf. unfold _create_lookup, getitem.
  rewrite Hexts. simpl. rewrite Hpq. simpl. rewrite Hcfg. simpl.
  assert (dict_get doctype_names doctype doctype = doctype_for doctype) as ->.
  { unfold dict_get, doctype_names, doctype_for.
    destruct (String.eqb_spec doctype "html5") as [-> | Hne].
    - by rewrite lookup_singleton_eq.
    - by rewrite lookup_singleton_ne. }
  unfold search_order, resolved.
  destruct (app_template_folder app) as [| tf | tfs]; [done | |]; simpl;
    by rewrite fold_add_blueprint, map_map.
Qed.

(** C5: for an application with the extension registered, the doctype
    configured and a declared template folder or list of folders,
    [_create_lookup] returns a lookup whose directory list is exactly the
    application's folders resolved against its root path in declared order,
    followed by the folders of each blueprint resolved against that
    blueprint's root path in registration order (a blueprint whose template
    folder is [None] or empty contributes nothing), with every path that is
    not an existing directory removed. *)
Theorem create_lookup_search_order fs app exts pq doctype :
  app_extensions app = Some exts ->
  exts !! "pyquery" = Some pq ->
  app_config app !! "PYQUERY_DOCTYPE" = Some doctype ->
  app_template_folder app <> NoFolder ->
  exists lookup,
    _create_lookup fs app = inr lookup
    /\ tl_directories lookup
       = List.filter (os_path_isdir fs)
           (resolved (app_root_path app) (app_template_folder app)
            ++ concat (map (fun b => blueprint_folders (snd b))
                         (default [] (app_blueprints app))))%list.
Proof.
  intros Hexts Hpq Hcfg Htf.
  rewrite (_create_lookup_unfold _ _ _ _ _ Hexts Hpq Hcfg Htf).
  eexists. split; reflexivity.
Qed.

(** ** Initialising the extension *)

(** What a call of [init_app] on an unbound extension object leaves. *)
Lemma init_app_unbound import_module (self : PyQueryTemplates value) app
    module_path :
  bound self = false ->
  init_app import_module self app module_path =
    match import_module (app_import_name app +:+ "." +:+ module_path) with
    | inl e =>
        (inl e,
         ({| pq_app := Some (app_id app); pq_module_path := Some module_path;
             pq_renderer_module := pq_renderer_module self |}, app))
    | inr m =>
        let self' := {| pq_app := Some (app_id app);
                        pq_module_path := Some module_path;
                        pq_renderer_module := Some m |} in
        (ret tt,
         (self',
          set_config
            (set__pyquery_lookup
               (set_extensions app
                  (<["pyquery" := self']> (default ∅ (app_extensions app))))
               None)
            (setdefault (app_config app) "PYQUERY_DOCTYPE" "html5")))
    end.
Proof.
  intros Hself. unfold init_app. rewrite Hself. simpl.
  destruct (import_module _) as [e | m]; [reflexivity |].
  destruct (app_extensions app) eqn:Hexts; simpl; by rewrite ?Hexts.
Qed.

Lemma init_app_binds import_module (self self' : PyQueryTemplates value)
    app app' module_path r :
  init_app import_module self app module_path = (r, (self', app')) ->
  bound self' = true.
Proof.
  destruct (bound self) eqn:Hself.
  - unfold init_app. rewrite Hself. by intros [= _ <- _].
  - rewrite (init_app_unbound _ _ _ _ Hself).
    destruct (import_module _); by intros [= _ <- _].
Qed.

(** C7: on an extension object that has an application bound, [init_app]
    raises [RuntimeError] and leaves the object, hence its application,
    module path and renderer module, and the application passed in as they
    were.  An object is in that state after any earlier [init_app] call and
    after construction with an application. *)
Theorem init_app_twice_raises import_module (self : PyQueryTemplates value)
    app module_path :
  (bound self = true
   \/ (exists im0 self0 app0 mp0 r app1,
         init_app im0 self0 app0 mp0 = (r, (self, app1)))
   \/ (exists im0 app0 mp0 left,
         PyQueryTemplates__init__ im0 (Some app0) mp0 = (inr self, left))) ->
  init_app import_module self app module_path
  = (inl (RuntimeError
       "Cannot call init_app when app argument was provided to PyQueryTemplates constructor."),
     (self, app)).
Proof.
  intros Hbound.
  assert (bound self = true) as Hself.
  { destruct Hbound as [Hb | [(im0 & self0 & app0 & mp0 & r & app1 & Hprior)
                             | (im0 & app0 & mp0 & left & Hctor)]].
    - done.
    - by eapply init_app_binds.
    - unfold PyQueryTemplates__init__ in Hctor.
      destruct (init_app im0 _ app0 mp0) as [[e | u] [self1 app2]] eqn:Hinit;
        [discriminate |].
      injection Hctor as <- _. by eapply init_app_binds. }
  unfold init_app. by rewrite Hself.
Qed.

(** C6: the alias table maps [html5] to [<!DOCTYPE html>] and nothing else;
    the lookup [_create_lookup] builds stores the table's literal for a
    configured doctype that is a key of the table and the configured string
    itself otherwise; every template resolved through that lookup is
    serialized with that doctype; and a successful [init_app] sets the
    configuration option to [html5] when it is unset and leaves a set option
    as it is. *)
Theorem doctype_resolution :
  (doctype_names !! "html5" = Some "<!DOCTYPE html>"
   /\ forall doctype, doctype <> "html5" ->
        doctype_names !! doctype = None)
  /\ (forall fs app exts pq doctype,
       app_extensions app = Some exts ->
       exts !! "pyquery" = Some pq ->
       app_config app !! "PYQUERY_DOCTYPE" = Some doctype ->
       app_template_folder app <> NoFolder ->
       exists lookup,
         _create_lookup fs app = inr lookup
         /\ tl_kwargs lookup !! "doctype"
            = Some (if String.eqb doctype "html5" then "<!DOCTYPE html>"
                    else doctype)
         /\ forall fs' app' name template context bytes,
              get_template fs' lookup app' name = inr template ->
              render fs' template context = inr bytes ->
              exists root,
                bytes = tostring root
                          (if String.eqb doctype "html5" then "<!DOCTYPE html>"
                           else doctype))
  /\ (forall import_module (self self' : PyQueryTemplates value) app app'
         module_path,
       init_app import_module self app module_path = (inr tt, (self', app')) ->
       app_config app' !! "PYQUERY_DOCTYPE"
       = Some (default "html5" (app_config app !! "PYQUERY_DOCTYPE"))).
Proof.
  split; [| split].
  - split; [reflexivity |].
    intros doctype Hne. unfold doctype_names. by rewrite lookup_singleton_ne.
  - intros fs app exts pq doctype Hexts Hpq Hcfg Htf.
    rewrite (_create_lookup_unfold _ _ _ _ _ Hexts Hpq Hcfg Htf).
    eexists. split; [reflexivity |]. simpl. split.
    + by rewrite lookup_singleton_eq.
    + intros fs' app' name template context bytes Hget Hrender.
      assert (tpl_kwargs template = {[ "doctype" := doctype_for doctype ]})
        as Hkwargs.
      { unfold get_template in Hget.
        destruct (app_extensions app'); [| discriminate]. simpl in Hget.
        destruct (getitem _ "pyquery") as [e | pq']; [discriminate |].
        simpl in Hget.
        destruct (is_None (getattr_object _ name)); [discriminate |].
        destruct (search fs' _ _); [| discriminate].
        by injection Hget as <-. }
      unfold render in Hrender.
      destruct (open_read fs' _) as [e | source]; [discriminate |].
      simpl in Hrender.
      destruct (PyQuery source) as [e | parsed]; [discriminate |].
      simpl in Hrender.
      destruct (call _ _ _) as [e | doc]; [discriminate |]. simpl in Hrender.
      destruct (negb (length doc =? 1)%nat); simpl in Hrender;
        [discriminate |].
      destruct (item doc 0) as [e | root]; [discriminate |]. simpl in Hrender.
      destruct (negb (String.eqb (tag root) "html")); [discriminate |].
      simpl in Hrender. rewrite Hkwargs in Hrender. unfold getitem in Hrender.
      rewrite lookup_singleton_eq in Hrender. simpl in Hrender.
      exists root. by injection Hrender as <-.
  - intros import_module self self' app app' module_path Hinit.
    destruct (bound self) eqn:Hself.
    + unfold init_app in Hinit. rewrite Hself in Hinit. discriminate.
    + rewrite (init_app_unbound _ _ _ _ Hself) in Hinit.
      destruct (import_module _) as [e | m]; [discriminate |].
      injection Hinit as _ <-. simpl. unfold setdefault.
      destruct (app_config app !! "PYQUERY_DOCTYPE") as [d |] eqn:Hcfg.
      * by rewrite Hcfg.
      * by rewrite lookup_insert_eq.
Qed.

(** ** The cached lookup *)

Lemma _lookup_hit fs app (lookup : TemplateLookup) :
  app__pyquery_lookup app = Some (Some lookup) ->
  _lookup fs app = (inr lookup, app).
Proof. intros Hslot. unfold _lookup. by rewrite Hslot. Qed.

Lemma lookups_hit disks app (lookup : TemplateLookup) :
  app__pyquery_lookup app = Some (Some lookup) ->
  lookups disks app = (repeat (inr lookup) (length disks), app).
Proof.
  intros Hslot. induction disks as [|fs disks IH]; simpl; [done |].
  by rewrite (_lookup_hit _ _ _ Hslot), IH.
Qed.

(** C8: a successful [init_app] leaves the application's lookup slot empty,
    so nothing is built before the first use.  On an empty slot, [_lookup]
    returns the lookup [_create_lookup] builds and stores it on the
    application; from then on every [_lookup] on that application returns
    the stored lookup and changes nothing, whatever the disk holds by then,
    so over the first call and any number of later calls the lookup, and
    with it the search order, is the one built at the first call. *)
Theorem lookup_cached fs app (lookup : TemplateLookup) :
  app__pyquery_lookup app = Some None ->
  _create_lookup fs app = inr lookup ->
  _lookup fs app = (inr lookup, set__pyquery_lookup app (Some lookup))
  /\ app__pyquery_lookup (set__pyquery_lookup app (Some lookup))
     = Some (Some lookup)
  /\ (forall fs',
      _lookup fs' (set__pyquery_lookup app (Some lookup))
      = (inr lookup, set__pyquery_lookup app (Some lookup)))
  /\ (forall disks,
      lookups (fs :: disks) app
      = (repeat (inr lookup) (S (length disks)),
         set__pyquery_lookup app (Some lookup)))
  /\ (forall fs0 app0 lookup0 app1,
      _lookup fs0 app0 = (inr lookup0, app1) ->
      app__pyquery_lookup app1 = Some (Some lookup0)
      /\ forall fs', _lookup fs' app1 = (inr lookup0, app1))
  /\ (forall import_module (self self' : PyQueryTemplates value) app0 app1
         module_path,
      init_app import_module self app0 module_path = (inr tt, (self', app1)) ->
      app__pyquery_lookup app1 = Some None).
Proof.
  intros Hempty Hcreate.
  assert (_lookup fs app = (inr lookup, set__pyquery_lookup app (Some lookup)))
    as Hfirst.
  { unfold _lookup. by rewrite Hempty, Hcreate. }
  assert (app__pyquery_lookup (set__pyquery_lookup app (Some lookup))
          = Some (Some lookup)) as Hslot by reflexivity.
  split; [done |]. split; [done |]. split; [| split; [| split]].
  - intros fs'. by apply _lookup_hit.
  - intros disks. simpl. rewrite Hfirst.
    by rewrite (lookups_hit disks _ lookup Hslot).
  - intros fs0 app0 lookup0 app1 Hlookup.
    assert (app__pyquery_lookup app1 = Some (Some lookup0)) as Hslot1.
    { unfold _lookup in Hlookup.
      destruct (app__pyquery_lookup app0) as [[cached |] |] eqn:Hslot0.
      - by injection Hlookup as <- <-.
      - destruct (_create_lookup fs0 app0) as [e | built]; [discriminate |].
        by injection Hlookup as <- <-.
      - discriminate. }
    split; [done |]. intros fs'. by apply _lookup_hit.
  - intros import_module self self' app0 app1 module_path Hinit.
    destruct (bound self) eqn:Hself.
    + unfold init_app in Hinit. rewrite Hself in Hinit. discriminate.
    + rewrite (init_app_unbound _ _ _ _ Hself) in Hinit.
      destruct (import_module _) as [e | m]; [discriminate |].
      by injection Hinit as _ <-.
Qed.

End Properties.

(** * The properties on the shop application *)

(** C1, as claimed, fails: the globals and the caller both give [title];
    the render succeeds, and the context sent with the signal holds the
    globals' [Shop], not the caller's [Cart]; so the final context is not
    the merge in the order globals, context processors, caller. *)
Lemma caller_context_overridden :
  app_jinja_globals Shop.app1 !! "title" = Some "Shop"
  /\ Shop.caller !! "title" = Some "Cart"
  /\ fst (@_render string Shop.libraries Shop.disk (Shop.template Shop.index)
            Shop.caller Shop.app1 [])
     = inr "<!DOCTYPE html><html>"
  /\ map (fun s => sig_context s !! "title")
       (snd (@_render string Shop.libraries Shop.disk
               (Shop.template Shop.index) Shop.caller Shop.app1 []))
     = [Some "Shop"]
  /\ final_context Shop.app1 Shop.caller
     <> merged (app_jinja_globals Shop.app1
                :: app_context_processors Shop.app1 ++ [Shop.caller]).
Proof.
  repeat split; try (vm_compute; reflexivity).
  intros Heq. apply (f_equal (fun c => c !! "title")) in Heq.
  vm_compute in Heq. discriminate.
Qed.

Lemma final_context_precedence_witness :
  final_context Shop.app1 Shop.caller !! "title" = Some "Shop"
  /\ final_context Shop.app1 Shop.caller !! "items" = Some "3".
Proof.
  destruct (@final_context_precedence string Shop.libraries Shop.app1
              Shop.caller) as (_ & Hglobals & Hcaller & _).
  split.
  - apply Hglobals. vm_compute. reflexivity.
  - apply Hcaller; vm_compute; reflexivity.
Defined.

Lemma render_root_check_witness :
  @render string Shop.libraries Shop.disk (Shop.template Shop.twins)
    Shop.caller
  = inl (TemplateError
           "There should only be one root document and it should be an <html> tag")
  /\ @render string Shop.libraries Shop.disk (Shop.template Shop.fragment)
       Shop.caller
     = inl (TemplateError
              "There should only be one root document and it should be an <html> tag")
  /\ forall msg,
       @render string Shop.libraries Shop.disk (Shop.template Shop.index)
         Shop.caller
       <> inl (TemplateError msg).
Proof.
  split; [| split].
  - destruct (@render_root_check string Shop.libraries Shop.disk
                (Shop.template Shop.twins) Shop.caller
                "<html><body></body></html>"
                [Node "html" "<html><body></body></html>" []]
                [Node "html" "<html><body></body></html>" [];
                 Node "html" "<html><body></body></html>" []]
                eq_refl eq_refl eq_refl) as [Hbad _].
    apply Hbad. left. simpl. lia.
  - destruct (@render_root_check string Shop.libraries Shop.disk
                (Shop.template Shop.fragment) Shop.caller
                "<html><body></body></html>"
                [Node "html" "<html><body></body></html>" []]
                [Node "body" "" []]
                eq_refl eq_refl eq_refl) as [Hbad _].
    apply Hbad. right. exists (Node "body" "" []).
    split; [reflexivity | discriminate].
  - destruct (@render_root_check string Shop.libraries Shop.disk
                (Shop.template Shop.index) Shop.caller
                "<html><body></body></html>"
                [Node "html" "<html><body></body></html>" []]
                [Node "html" "<html><body></body></html>" []]
                eq_refl eq_refl eq_refl) as [_ Hgood].
    apply (Hgood (Node "html" "<html><body></body></html>" []));
      reflexivity.
Defined.

(** C3, as claimed, fails twice.  [shop.renderer] has an attribute
    [__doc__], and a search directory holds [__doc__.html], yet
    [get_template] raises the "no such renderer" error, because the
    attribute is [None].  And for a name that starts with a separator a
    [Template] is returned though the only search directory holds no such
    file: the path joined to it is the absolute path itself. *)
Lemma get_template_iff_fails :
  (mod_dict Shop.renderer !! "__doc__" = Some PyNone
   /\ "/srv/shop/admin/templates" ∈ tl_directories Shop.lookup
   /\ os_path_isfile Shop.disk
        (inside "/srv/shop/admin/templates" "__doc__.html") = true
   /\ @get_template string Shop.libraries Shop.interpreter Shop.disk
        Shop.lookup Shop.app1 "__doc__"
      = inl (AttributeError
               "No such renderer None in <module 'shop.renderer'>"))
  /\ (mod_dict Cases.odd_renderer !! "/srv/shop/templates/index"
      = Some Shop.index
      /\ tl_directories Cases.elsewhere = ["/srv/shop/blog/themes"]
      /\ os_path_exists Shop.disk
           (inside "/srv/shop/blog/themes" "/srv/shop/templates/index.html")
         = false
      /\ @get_template string Shop.libraries Shop.interpreter Shop.disk
           Cases.elsewhere Cases.odd_app "/srv/shop/templates/index"
         = inr {| tpl_path := "/srv/shop/templates/index.html";
                  tpl_renderer := Shop.index;
                  tpl_kwargs := tl_kwargs Cases.elsewhere |}).
Proof.
  repeat split; try (vm_compute; reflexivity).
  apply list_elem_of_further, list_elem_of_here.
Qed.

Lemma get_template_outcomes_witness :
  (exists template,
     @get_template string Shop.libraries Shop.interpreter Shop.disk
       Shop.lookup Shop.app1 "index" = inr template)
  /\ (exists msg,
        @get_template string Shop.libraries Shop.interpreter Shop.disk
          Shop.lookup Shop.app1 "twins" = inl (FileNotFoundError msg))
  /\ (exists msg,
        @get_template string Shop.libraries Shop.interpreter Shop.disk
          Shop.lookup Shop.app1 "__doc__" = inl (AttributeError msg))
  /\ os_path_join "/srv/shop/templates" "index.html"
     = inside "/srv/shop/templates" "index.html".
Proof.
  split; [| split; [| split]].
  - destruct (@get_template_outcomes string Shop.libraries Shop.interpreter
                Shop.disk Shop.lookup Shop.app1 Shop.registry Shop.pq
                Shop.renderer "index" eq_refl eq_refl eq_refl)
      as (_ & _ & Hfound & _).
    apply Hfound.
    + exists Shop.index. split; [reflexivity | discriminate].
    + exists "/srv/shop/templates".
      split; [apply list_elem_of_here | reflexivity].
  - destruct (@get_template_outcomes string Shop.libraries Shop.interpreter
                Shop.disk Shop.lookup Shop.app1 Shop.registry Shop.pq
                Shop.renderer "twins" eq_refl eq_refl eq_refl)
      as (_ & Hmissing & _).
    apply Hmissing. split.
    + exists Shop.twins. split; [reflexivity | discriminate].
    + intros d Hd. vm_compute in Hd.
      repeat (apply elem_of_cons in Hd as [-> | Hd]; [reflexivity |]).
      inversion Hd.
  - destruct (@get_template_outcomes string Shop.libraries Shop.interpreter
                Shop.disk Shop.lookup Shop.app1 Shop.registry Shop.pq
                Shop.renderer "__doc__" eq_refl eq_refl eq_refl)
      as (Hrenderer & _).
    apply Hrenderer. right. reflexivity.
  - destruct (@get_template_outcomes string Shop.libraries Shop.interpreter
                Shop.disk Shop.lookup Shop.app1 Shop.registry Shop.pq
                Shop.renderer "index" eq_refl eq_refl eq_refl)
      as (_ & _ & _ & Hrelative & _).
    apply (Hrelative eq_refl "/srv/shop/templates").
Defined.

(** C4, as claimed, fails: [index.html] is in two search directories, but
    the registered module has no attribute [index], and [get_template]
    raises the "no such renderer" error instead of returning the first
    match. *)
Lemma first_match_needs_renderer :
  tl_directories Shop.lookup
  = ["/srv/shop/templates"; "/srv/shop/admin/templates";
     "/srv/shop/blog/themes"]
  /\ os_path_isfile Shop.disk (inside "/srv/shop/templates" "index.html")
     = true
  /\ os_path_isfile Shop.disk
       (inside "/srv/shop/admin/templates" "index.html") = true
  /\ app_extensions Cases.odd_app
     = Some {[ "pyquery" := {| pq_app := Some 1; pq_module_path := Some "odd";
                               pq_renderer_module := Some Cases.odd_renderer |} ]}
  /\ mod_dict Cases.odd_renderer !! "index" = None
  /\ @get_template string Shop.libraries Shop.interpreter Shop.disk
       Shop.lookup Cases.odd_app "index"
     = inl (AttributeError "No such renderer None in <module 'shop.odd'>").
Proof. repeat split; vm_compute; reflexivity. Qed.

Lemma get_template_first_match_witness :
  @get_template string Shop.libraries Shop.interpreter Shop.disk Shop.lookup
    Shop.app1 "report"
  = inr {| tpl_path := "/srv/shop/admin/templates/report.html";
           tpl_renderer := Shop.index;
           tpl_kwargs := tl_kwargs Shop.lookup |}
  /\ os_path_join "/srv/shop/admin/templates" "report.html"
     = inside "/srv/shop/admin/templates" "report.html".
Proof.
  destruct (@get_template_first_match string Shop.libraries Shop.interpreter
              Shop.disk Shop.lookup Shop.app1 Shop.registry Shop.pq
              Shop.renderer "report" Shop.index
              ["/srv/shop/templates"] "/srv/shop/admin/templates"
              ["/srv/shop/blog/themes"] eq_refl eq_refl eq_refl eq_refl)
    as [Hfirst Hinside]; try reflexivity.
  - discriminate.
  - intros d' Hd'. apply elem_of_cons in Hd' as [-> | Hd'];
      [reflexivity | inversion Hd'].
  - split; [exact Hfirst | apply Hinside; reflexivity].
Defined.

Lemma create_lookup_search_order_witness :
  exists lookup,
    @_create_lookup string Shop.disk Shop.app1 = inr lookup
    /\ tl_directories lookup
       = ["/srv/shop/templates"; "/srv/shop/admin/templates";
          "/srv/shop/blog/themes"].
Proof.
  apply (@create_lookup_search_order string Shop.disk Shop.app1 Shop.registry Shop.pq
           "html5");
    [reflexivity | reflexivity | reflexivity | discriminate].
Defined.

Lemma doctype_resolution_witness :
  (exists lookup,
     @_create_lookup string Shop.disk Shop.app1 = inr lookup
     /\ tl_kwargs lookup !! "doctype" = Some "<!DOCTYPE html>")
  /\ (exists lookup,
        @_create_lookup string Shop.disk Shop.custom = inr lookup
        /\ tl_kwargs lookup !! "doctype" = Some "custom-doctype")
  /\ app_config Shop.app1 !! "PYQUERY_DOCTYPE" = Some "html5".
Proof.
  destruct (@doctype_resolution string Shop.libraries Shop.interpreter)
    as (_ & Hlookup & Hdefault).
  split; [| split].
  - destruct (Hlookup Shop.disk Shop.app1 Shop.registry Shop.pq "html5"
                eq_refl eq_refl eq_refl) as (lookup & Hbuilt & Hdoctype & _);
      [discriminate |].
    exists lookup. split; [exact Hbuilt | exact Hdoctype].
  - destruct (Hlookup Shop.disk Shop.custom Shop.registry Shop.pq "custom-doctype"
                eq_refl eq_refl eq_refl) as (lookup & Hbuilt & Hdoctype & _);
      [discriminate |].
    exists lookup. split; [exact Hbuilt | exact Hdoctype].
  - apply (Hdefault Shop.import_module Shop.fresh Shop.pq Shop.app Shop.app1
             "renderer").
    vm_compute. reflexivity.
Defined.

Lemma init_app_twice_raises_witness :
  init_app Shop.import_module Shop.pq Shop.app1 "renderer"
  = (inl (RuntimeError
       "Cannot call init_app when app argument was provided to PyQueryTemplates constructor."),
     (Shop.pq, Shop.app1)).
Proof.
  apply (@init_app_twice_raises string Shop.import_module Shop.pq Shop.app1
           "renderer").
  right. left.
  exists Shop.import_module, Shop.fresh, Shop.app, "renderer", (inr tt),
    Shop.app1.
  vm_compute. reflexivity.
Defined.

Lemma lookup_cached_witness :
  @_lookup string Shop.disk Shop.app1 = (inr Shop.lookup, Shop.app2)
  /\ @_lookup string Shop.wiped Shop.app2 = (inr Shop.lookup, Shop.app2)
  /\ lookups [Shop.disk; Shop.wiped; Shop.disk; Shop.wiped] Shop.app1
     = ([inr Shop.lookup; inr Shop.lookup; inr Shop.lookup; inr Shop.lookup],
        Shop.app2).
Proof.
  destruct (@lookup_cached string Shop.disk Shop.app1 Shop.lookup)
    as (Hfirst & _ & Hlater & Hall & _).
  - reflexivity.
  - vm_compute. reflexivity.
  - split; [exact Hfirst |].
    split; [apply Hlater | apply (Hall [Shop.wiped; Shop.disk; Shop.wiped])].
Defined.

(** [render_template] on the shop: the lookup is built and cached, the
    template resolved and rendered, and the one signal carries it with the
    final context. *)
Lemma template_rendered_iff_success_witness :
  @render_template string Shop.libraries Shop.interpreter Shop.disk "index"
    Shop.caller {| top := Some Shop.app1; sent := [] |}
  = (inr "<!DOCTYPE html><html>",
     {| top := Some Shop.app2;
        sent := [{| sig_sender := 1;
                    sig_template := Shop.template Shop.index;
                    sig_context := final_context Shop.app2 Shop.caller |}] |}).
Proof.
  destruct (@template_rendered_iff_success string Shop.libraries
              Shop.interpreter Shop.disk "index" Shop.caller)
    as (_ & _ & _ & _ & Hrendered).
  apply (Hrendered {| top := Some Shop.app1; sent := [] |} Shop.app1 Shop.app2
           Shop.lookup (Shop.template Shop.index)).
  - reflexivity.
  - vm_compute. reflexivity.
  - vm_compute. reflexivity.
Defined.

Lemma missing_renderer_reported_first_witness :
  @get_template string Shop.libraries Shop.interpreter Shop.disk Shop.lookup Shop.app1 "missing"
  = inl (AttributeError "No such renderer None in <module 'shop.renderer'>")
  /\ @get_template string Shop.libraries Shop.interpreter Shop.disk Shop.lookup Shop.app1
       "checkout" = inl (AttributeError
                          "No such renderer None in <module 'shop.renderer'>").
Proof.
  split.
  - apply (@missing_renderer_reported_first string Shop.libraries
             Shop.interpreter Shop.disk
             Shop.lookup Shop.app1 Shop.registry Shop.pq Shop.renderer "missing");
      reflexivity.
  - apply (@missing_renderer_reported_first string Shop.libraries
             Shop.interpreter Shop.disk
             Shop.lookup Shop.app1 Shop.registry Shop.pq Shop.renderer "checkout");
      reflexivity.
Defined.

(** [render_template] end to end: a successful render sends one signal; a
    template without a file raises and sends none, though the lookup it
    built stays cached. *)
Example render_template_index :
  let r := @render_template string Shop.libraries Shop.interpreter Shop.disk "index" Shop.caller
             {| top := Some Shop.app1; sent := [] |} in
  fst r = inr "<!DOCTYPE html><html>"
  /\ map (fun s => tpl_path (sig_template s)) (sent (snd r))
     = ["/srv/shop/templates/index.html"]
  /\ map (fun s => map_to_list (sig_context s)) (sent (snd r))
     = [[("site", "shop.example"); ("user", "guest"); ("items", "3");
         ("title", "Shop")]].
Proof. vm_compute. repeat split. Qed.

Example render_template_twins :
  let r := @render_template string Shop.libraries Shop.interpreter Shop.disk "twins" Shop.caller
             {| top := Some Shop.app1; sent := [] |} in
  fst r = inl (FileNotFoundError "No such template 'twins.html'")
  /\ sent (snd r) = []
  /\ option_map app__pyquery_lookup (top (snd r))
     = Some (Some (Some Shop.lookup)).
Proof. vm_compute. repeat split. Qed.

Example os_path_join_posix :
  os_path_join "/srv/shop" "templates" = "/srv/shop/templates"
  /\ os_path_join "/srv/shop/" "templates" = "/srv/shop/templates"
  /\ os_path_join "" "templates" = "templates"
  /\ os_path_join "/srv/shop" "/etc" = "/etc"
  /\ os_path_join "/srv/shop" "" = "/srv/shop/".
Proof. repeat split. Qed.

(** * Further properties *)

Section Further.

Context {value : Type} `{Libraries} `{!Interpreter value}.

Implicit Types (fs : filesystem) (app : App value) (name filename : string).
Implicit Types (context : gmap string value) (m : Module value).

(** ** Initialisation *)

(** After a successful [init_app] on an unbound extension object: the object
    is bound to the application, module path and imported module; the
    application's registry maps [pyquery] to it and keeps every other entry;
    every configuration entry that was set keeps its value, an explicit
    doctype included, and only the doctype key can be new; the lookup slot
    is empty; nothing else of the application changes. *)
Theorem init_app_registers import_module (self : PyQueryTemplates value) app
    module_path m :
  bound self = false ->
  import_module (app_import_name app +:+ "." +:+ module_path) = inr m ->
  exists self' app' exts',
    init_app import_module self app module_path = (inr tt, (self', app'))
    /\ self' = {| pq_app := Some (app_id app);
                  pq_module_path := Some module_path;
                  pq_renderer_module := Some m |}
    /\ app_extensions app' = Some exts'
    /\ exts' !! "pyquery" = Some self'
    /\ (forall key, key <> "pyquery" ->
        exts' !! key = default ∅ (app_extensions app) !! key)
    /\ (forall key v, app_config app !! key = Some v ->
        app_config app' !! key = Some v)
    /\ (forall key, key <> "PYQUERY_DOCTYPE" ->
        app_config app' !! key = app_config app !! key)
    /\ app__pyquery_lookup app' = Some None
    /\ app_id app' = app_id app
    /\ app_import_name app' = app_import_name app
    /\ app_root_path app' = app_root_path app
    /\ app_template_folder app' = app_template_folder app
    /\ app_blueprints app' = app_blueprints app
    /\ app_jinja_globals app' = app_jinja_globals app
    /\ app_context_processors app' = app_context_processors app.
Proof.
  intros Hself Himport. rewrite (init_app_unbound _ _ _ _ Hself), Himport.
  do 3 eexists. split; [reflexivity |]. split; [reflexivity |].
  split; [reflexivity |]. simpl.
  split; [apply lookup_insert_eq |].
  split; [intros key Hkey; by rewrite lookup_insert_ne |].
  unfold setdefault.
  destruct (app_config app !! "PYQUERY_DOCTYPE") as [d |] eqn:Hcfg.
  - repeat split; done.
  - split.
    + intros key v Hkey. rewrite lookup_insert_ne; [done |]. congruence.
    + split; [intros key Hkey; by rewrite lookup_insert_ne |].
      repeat split; done.
Qed.

(** When the import fails in [init_app], the exception is the import's, the
    application is left as it was (nothing registered), but the extension
    object stays bound: every later [init_app] on it, with any importer,
    application or module path, raises [RuntimeError] and changes nothing,
    so the import cannot be retried on that object. *)
Theorem init_app_import_failure import_module (self : PyQueryTemplates value)
    app module_path e :
  bound self = false ->
  import_module (app_import_name app +:+ "." +:+ module_path) = inl e ->
  exists self',
    init_app import_module self app module_path = (inl e, (self', app))
    /\ pq_app self' = Some (app_id app)
    /\ pq_module_path self' = Some module_path
    /\ pq_renderer_module self' = pq_renderer_module self
    /\ forall import_module' app' module_path',
         init_app import_module' self' app' module_path'
         = (inl (RuntimeError
              "Cannot call init_app when app argument was provided to PyQueryTemplates constructor."),
            (self', app')).
Proof.
  intros Hself Himport. rewrite (init_app_unbound _ _ _ _ Hself), Himport.
  eexists. repeat split; reflexivity.
Qed.

(** An application with a declared template folder is ready after a
    successful [init_app]: the next [_lookup] succeeds on any disk, whatever
    lookup was cached before, and builds the lookup from the application's
    folders on that disk and from the configured doctype, [html5] when none
    was configured. *)
Theorem lookup_after_init_app import_module (self : PyQueryTemplates value)
    app module_path m fs :
  bound self = false ->
  import_module (app_import_name app +:+ "." +:+ module_path) = inr m ->
  app_template_folder app <> NoFolder ->
  exists self' app' lookup,
    init_app import_module self app module_path = (inr tt, (self', app'))
    /\ _lookup fs app' = (inr lookup, set__pyquery_lookup app' (Some lookup))
    /\ tl_app lookup = app_id app
    /\ tl_kwargs lookup
       = {[ "doctype" :=
              doctype_for (default "html5"
                             (app_config app !! "PYQUERY_DOCTYPE")) ]}
    /\ tl_directories lookup = search_order fs app.
Proof.
  intros Hself Himport Htf.
  rewrite (init_app_unbound _ _ _ _ Hself), Himport. simpl.
  set (self' := {| pq_app := Some (app_id app);
                   pq_module_path := Some module_path;
                   pq_renderer_module := Some m |}).
  set (app' := set_config _ _).
  assert (_create_lookup fs app'
          = inr {| tl_app := app_id app';
                   tl_kwargs :=
                     {[ "doctype" :=
                          doctype_for (default "html5"
                            (app_config app !! "PYQUERY_DOCTYPE")) ]};
                   tl_directories := search_order fs app' |}) as Hcreate.
  { apply (_create_lookup_unfold fs app'
             (<["pyquery" := self']> (default ∅ (app_extensions app))) self').
    - reflexivity.
    - apply lookup_insert_eq.
    - subst app'. simpl. unfold setdefault.
      destruct (app_config app !! "PYQUERY_DOCTYPE") as [d |] eqn:Hcfg.
      + by rewrite Hcfg.
      + by rewrite lookup_insert_eq.
    - done. }
  exists self', app'. eexists. split; [reflexivity |].
  split.
  - unfold _lookup.
    assert (app__pyquery_lookup app' = Some None) as -> by reflexivity.
    by rewrite Hcreate.
  - repeat split; reflexivity.
Qed.

(** ** Resolution *)

Lemma search_inv fs directories filename p :
  search fs directories filename = Some p ->
  exists before d after,
    directories = (before ++ d :: after)%list
    /\ (forall d', d' ∈ before -> file_at_join fs d' filename = false)
    /\ file_at_join fs d filename = true
    /\ p = os_path_join d filename.
Proof.
  unfold file_at_join. induction directories as [|d ds IH]; simpl;
    [discriminate |].
  destruct (os_path_exists fs (os_path_join d filename)
            && os_path_isfile fs (os_path_join d filename)) eqn:E.
  - intros [= <-]. exists [], d, ds. repeat split; [| done].
    intros d' Hd'. inversion Hd'.
  - intros Hrest. destruct (IH Hrest) as (before & d0 & after & -> & Hb & Hd & ->).
    exists (d :: before), d0, after. repeat split; [| done].
    intros d' Hd'. apply elem_of_cons in Hd' as [-> | Hd']; auto.
Qed.

Lemma get_template_inv fs (self : TemplateLookup) app name
    (template : Template value) :
  get_template fs self app name = inr template ->
  exists exts pq p,
    app_extensions app = Some exts
    /\ exts !! "pyquery" = Some pq
    /\ getattr_object (pq_renderer_module pq) name <> PyNone
    /\ search fs (tl_directories self) (name +:+ ".html") = Some p
    /\ template = {| tpl_path := p;
                     tpl_renderer := getattr_object (pq_renderer_module pq) name;
                     tpl_kwargs := tl_kwargs self |}.
Proof.
  intros Hget. unfold get_template in Hget.
  destruct (app_extensions app) as [exts |] eqn:Hexts; [| discriminate].
  simpl in Hget. unfold getitem in Hget.
  destruct (exts !! "pyquery") as [pq |] eqn:Hpq; [| discriminate].
  simpl in Hget.
  destruct (is_None (getattr_object (pq_renderer_module pq) name)) eqn:Hnone;
    [discriminate |].
  destruct (search fs (tl_directories self) (name +:+ ".html")) as [p |]
    eqn:Hsearch; [| discriminate].
  injection Hget as <-.
  exists exts, pq, p. repeat split; try done.
  intros Heq. rewrite Heq in Hnone. discriminate.
Qed.

(** Whatever [get_template] returns was really found: the extension is
    registered; the renderer is what [getattr] answers for the name on the
    registered object's [renderer_module] and is not [None], so that an
    imported module binds the name to it (and with no module it is an
    attribute of [None] itself); the path is the file [<name>.html] joined
    to a search directory before which no directory gives an existing
    regular file; that path exists and is a regular file on the disk
    consulted; and the options are the lookup's. *)
Theorem get_template_sound fs (self : TemplateLookup) app name
    (template : Template value) :
  get_template fs self app name = inr template ->
  exists exts pq before d after,
    app_extensions app = Some exts
    /\ exts !! "pyquery" = Some pq
    /\ tpl_renderer template = getattr_object (pq_renderer_module pq) name
    /\ tpl_renderer template <> PyNone
    /\ (forall m, pq_renderer_module pq = Some m ->
        mod_dict m !! name = Some (tpl_renderer template))
    /\ (pq_renderer_module pq = None ->
        tpl_renderer template = None_attribute name)
    /\ tl_directories self = (before ++ d :: after)%list
    /\ (forall d', d' ∈ before ->
        file_at_join fs d' (name +:+ ".html") = false)
    /\ tpl_path template = os_path_join d (name +:+ ".html")
    /\ os_path_exists fs (tpl_path template) = true
    /\ os_path_isfile fs (tpl_path template) = true
    /\ tpl_kwargs template = tl_kwargs self.
Proof.
  intros Hget.
  apply get_template_inv in Hget
    as (exts & pq & p & Hexts & Hpq & Hne & Hsearch & ->).
  apply search_inv in Hsearch as (before & d & after & Hdirs & Hb & Hd & ->).
  exists exts, pq, before, d, after.
  unfold file_at_join in Hd. apply andb_prop in Hd as [Hexists Hfile].
  simpl. repeat split; try done.
  - intros m Hm. rewrite Hm in Hne |- *. simpl in *.
    unfold getattr, dict_get in *.
    by destruct (mod_dict m !! name).
  - by intros ->.
Qed.

Lemma append_assoc (a b c : string) : (a +:+ b) +:+ c = a +:+ (b +:+ c).
Proof.
  induction a as [|x a IH]; [reflexivity |].
  change (String x ((a +:+ b) +:+ c) = String x (a +:+ (b +:+ c))).
  by rewrite IH.
Qed.

Lemma os_path_join_suffix (a b : string) :
  exists prefix, os_path_join a b = prefix +:+ b.
Proof.
  unfold os_path_join. destruct (startswith_sep b).
  - by exists "".
  - destruct (String.eqb a "" || endswith_sep a)%bool.
    + by exists a.
    + exists (a +:+ "/"). symmetry. apply append_assoc.
Qed.

Lemma startswith_sep_append (a b : string) :
  startswith_sep a = true -> startswith_sep (a +:+ b) = true.
Proof. by destruct a. Qed.

(** The path of a returned template always ends in [<name>.html]; and for a
    name that starts with a separator the path is [<name>.html] itself,
    since [os.path.join] drops the directory before an absolute second
    argument: such a name is looked up outside the search directories. *)
Theorem template_path_ends_with_name fs (self : TemplateLookup) app name
    (template : Template value) :
  get_template fs self app name = inr template ->
  (exists prefix, tpl_path template = prefix +:+ name +:+ ".html")
  /\ (startswith_sep name = true -> tpl_path template = name +:+ ".html").
Proof.
  intros Hget.
  apply get_template_inv in Hget
    as (exts & pq & p & _ & _ & _ & Hsearch & ->).
  apply search_inv in Hsearch as (before & d & after & _ & _ & _ & ->).
  simpl. split; [apply os_path_join_suffix |].
  intros Habs. unfold os_path_join.
  by rewrite (startswith_sep_append _ ".html" Habs).
Qed.

(** ** Building the lookup *)

(** [_create_lookup] fails exactly when the application has no extension
    registry, no [pyquery] entry in it, no configured doctype, or no
    template folder; what the disk holds never makes it fail, and the
    exception does not depend on the disk. *)
Theorem create_lookup_failure fs app :
  ((exists e, _create_lookup fs app = inl e)
   <-> (app_extensions app = None
        \/ (exists exts, app_extensions app = Some exts
                         /\ exts !! "pyquery" = None)
        \/ app_config app !! "PYQUERY_DOCTYPE" = None
        \/ app_template_folder app = NoFolder))
  /\ (forall e fs', _create_lookup fs app = inl e ->
                    _create_lookup fs' app = inl e).
Proof.
  unfold _create_lookup, getitem.
  destruct (app_extensions app) as [exts |] eqn:Hexts; simpl.
  2:{ split; [| done]. split; [by left | eauto]. }
  destruct (exts !! "pyquery") as [pq |] eqn:Hpq; simpl.
  2:{ split; [| done]. split; [right; left; eauto | eauto]. }
  destruct (app_config app !! "PYQUERY_DOCTYPE") as [doctype |] eqn:Hcfg; simpl.
  2:{ split; [| done]. split; [right; right; by left | eauto]. }
  destruct (app_template_folder app) as [| tf | tfs] eqn:Htf; simpl.
  - split; [| done]. split; [by do 3 right | eauto].
  - split; [| discriminate]. split; [intros [e He]; discriminate |].
    intros [? | [(exts' & [= <-] & ?) | [? | ?]]]; congruence.
  - split; [| discriminate]. split; [intros [e He]; discriminate |].
    intros [? | [(exts' & [= <-] & ?) | [? | ?]]]; congruence.
Qed.

(** Every directory of a lookup [_create_lookup] built is a declared folder
    of the application or of one of its blueprints and was an existing
    directory on the disk consulted, and every declared folder that was one
    is in the lookup; when no declared folder is a directory the lookup has
    no directory and resolves no template. *)
Theorem created_directories fs app (lookup : TemplateLookup) :
  _create_lookup fs app = inr lookup ->
  (forall d,
     In d (tl_directories lookup)
     <-> In d (resolved (app_root_path app) (app_template_folder app)
               ++ concat (map (fun b => blueprint_folders (snd b))
                            (default [] (app_blueprints app))))%list
         /\ os_path_isdir fs d = true)
  /\ ((forall d,
        In d (resolved (app_root_path app) (app_template_folder app)
              ++ concat (map (fun b => blueprint_folders (snd b))
                           (default [] (app_blueprints app))))%list ->
        os_path_isdir fs d = false) ->
      tl_directories lookup = []
      /\ forall fs' name (template : Template value),
           get_template fs' lookup app name <> inr template).
Proof.
  intros Hcreate.
  assert (tl_directories lookup = search_order fs app) as Hdirs.
  { pose proof Hcreate as Hcopy. unfold _create_lookup, getitem in Hcopy.
    destruct (app_extensions app) as [exts |] eqn:Hexts; [| discriminate].
    simpl in Hcopy.
    destruct (exts !! "pyquery") as [pq |] eqn:Hpq; [| discriminate].
    simpl in Hcopy.
    destruct (app_config app !! "PYQUERY_DOCTYPE") as [doctype |] eqn:Hcfg;
      [| discriminate].
    assert (app_template_folder app <> NoFolder) as Htf.
    { intros Htf. rewrite Htf in Hcopy. discriminate. }
    rewrite (_create_lookup_unfold fs _ _ _ _ Hexts Hpq Hcfg Htf) in Hcreate.
    by injection Hcreate as <-. }
  rewrite Hdirs. unfold search_order. split.
  - intros d. apply filter_In.
  - intros Hnone.
    assert (List.filter (os_path_isdir fs)
              (resolved (app_root_path app) (app_template_folder app)
               ++ concat (map (fun b => blueprint_folders (snd b))
                            (default [] (app_blueprints app))))%list = [])
      as Hempty.
    { induction (resolved _ _ ++ _)%list as [|d ds IH]; simpl; [done |].
      rewrite (Hnone d (or_introl eq_refl)). apply IH.
      intros d' Hd'. apply Hnone. by right. }
    split; [done |].
    intros fs' name template Hget.
    apply get_template_inv in Hget
      as (exts' & pq' & p & _ & _ & _ & Hsearch & _).
    rewrite Hdirs in Hsearch. unfold search_order in Hsearch.
    rewrite Hempty in Hsearch. discriminate.
Qed.

(** ** Rendering *)

(** A render that returns has read and parsed the file, called a callable
    renderer that returned exactly one element tagged [html], found a
    doctype in the template's options, and returns the serialization of that
    element with that doctype. *)
Theorem render_success fs (self : Template value) context bytes :
  render fs self context = inr bytes ->
  exists source parsed f root doctype,
    open_read fs (tpl_path self) = inr source
    /\ PyQuery source = inr parsed
    /\ tpl_renderer self = PyCallable f
    /\ f parsed context = inr [root]
    /\ tag root = "html"
    /\ tpl_kwargs self !! "doctype" = Some doctype
    /\ bytes = tostring root doctype.
Proof.
  unfold render. intros Hrender.
  destruct (open_read fs (tpl_path self)) as [e | source] eqn:Hread;
    [discriminate |].
  simpl in Hrender.
  destruct (PyQuery source) as [e | parsed] eqn:Hparse; [discriminate |].
  simpl in Hrender.
  destruct (tpl_renderer self) as [| f | type_name] eqn:Hf; simpl in Hrender;
    [discriminate | | discriminate].
  destruct (f parsed context) as [e | doc] eqn:Hcall; [discriminate |].
  simpl in Hrender.
  destruct doc as [| root [| second rest]]; simpl in Hrender;
    [discriminate | | discriminate].
  destruct (String.eqb_spec (tag root) "html") as [Htag | Htag];
    simpl in Hrender; [| discriminate].
  unfold getitem in Hrender.
  destruct (tpl_kwargs self !! "doctype") as [doctype |] eqn:Hdoctype;
    [| discriminate].
  injection Hrender as <-.
  exists source, parsed, f, root, doctype. repeat split; done.
Qed.

(** The order in which [Template.render] fails: an error of reading or
    parsing the file comes before the renderer is called; a renderer that is
    not callable is a [TypeError]; an exception of the renderer is passed on
    as it is; a document that fails the root check is a [TemplateError] even
    when the options hold no doctype; and a missing doctype is a [KeyError]
    only for a document that passes the check. *)
Theorem render_error_order fs (self : Template value) context :
  (forall e, open_read fs (tpl_path self) = inl e ->
     render fs self context = inl e)
  /\ (forall source,
       open_read fs (tpl_path self) = inr source ->
       (forall e, PyQuery source = inl e -> render fs self context = inl e)
       /\ forall parsed, PyQuery source = inr parsed ->
          ((forall f, tpl_renderer self <> PyCallable f) ->
           exists msg, render fs self context = inl (TypeError msg))
          /\ (forall e, call (tpl_renderer self) parsed context = inl e ->
              render fs self context = inl e)
          /\ (forall doc, call (tpl_renderer self) parsed context = inr doc ->
              tpl_kwargs self !! "doctype" = None ->
              (forall root, doc = [root] -> tag root <> "html") ->
              exists msg, render fs self context = inl (TemplateError msg))
          /\ (forall root, call (tpl_renderer self) parsed context = inr [root] ->
              tag root = "html" ->
              tpl_kwargs self !! "doctype" = None ->
              render fs self context = inl (KeyError "doctype"))).
Proof.
  unfold render. split.
  - by intros e ->.
  - intros source ->. simpl. split; [by intros e -> |].
    intros parsed ->. simpl. split; [| split; [| split]].
    + intros Hf. destruct (tpl_renderer self) as [| f | type_name]; simpl.
      * eauto.
      * by destruct (Hf f).
      * eauto.
    + by intros e ->.
    + intros doc -> _ Hroot. simpl.
      destruct doc as [| root [| second rest]]; simpl; [eauto | | eauto].
      destruct (String.eqb_spec (tag root) "html") as [Htag | Htag]; simpl.
      * by destruct (Hroot root).
      * eauto.
    + intros root -> Htag Hdoctype. simpl. rewrite Htag. simpl.
      unfold getitem. by rewrite Hdoctype.
Qed.

(** ** The merged context, key by key *)

Lemma final_context_union app context :
  final_context app context
  = app_jinja_globals app
    ∪ (context ∪ fold_left dict_update (app_context_processors app) ∅).
Proof.
  unfold final_context, update_template_context.
  rewrite fold_update_union. unfold dict_update.
  by rewrite union_absorb, (assoc_L (∪)).
Qed.

Lemma fold_update_is_Some (layers : list (gmap string value)) context k :
  is_Some (fold_left dict_update layers context !! k)
  <-> is_Some (context !! k) \/ exists p, p ∈ layers /\ is_Some (p !! k).
Proof.
  revert context. induction layers as [|layer layers IH]; intros context; simpl.
  - split; [by left | intros [? | (p & Hp & _)]; [done | inversion Hp]].
  - rewrite IH. unfold dict_update. rewrite lookup_union_is_Some. split.
    + intros [[Hl | Hc] | (p & Hp & Hk)].
      * right. exists layer. split; [apply list_elem_of_here | done].
      * by left.
      * right. exists p. split; [by apply list_elem_of_further | done].
    + intros [Hc | (p & Hp & Hk)].
      * left. by right.
      * apply elem_of_cons in Hp as [-> | Hp]; [left; by left |].
        right. eauto.
Qed.

Lemma fold_update_None (layers : list (gmap string value)) context k :
  context !! k = None ->
  (forall p, p ∈ layers -> p !! k = None) ->
  fold_left dict_update layers context !! k = None.
Proof.
  intros Hc Hl. apply eq_None_not_Some. rewrite fold_update_is_Some.
  intros [Hs | (p & Hp & Hs)].
  - rewrite Hc in Hs. by destruct Hs.
  - rewrite (Hl p Hp) in Hs. by destruct Hs.
Qed.

(** The keys of the final context are exactly the keys of the template
    globals, of the caller's context and of the context processors'
    dictionaries: merging loses no key and invents none. *)
Theorem final_context_keys app context k :
  is_Some (final_context app context !! k)
  <-> is_Some (app_jinja_globals app !! k)
      \/ is_Some (context !! k)
      \/ exists p, p ∈ app_context_processors app /\ is_Some (p !! k).
Proof.
  rewrite final_context_union, !lookup_union_is_Some, fold_update_is_Some.
  rewrite lookup_empty. split.
  - intros [? | [? | [Hempty | ?]]]; auto. by destruct Hempty.
  - intros [? | [? | ?]]; auto.
Qed.

(** A key that neither the template globals nor the caller give takes the
    value of the last context processor, in call order, that returns it. *)
Theorem context_processor_layer app context k v before p after :
  app_jinja_globals app !! k = None ->
  context !! k = None ->
  app_context_processors app = (before ++ p :: after)%list ->
  p !! k = Some v ->
  (forall q, q ∈ after -> q !! k = None) ->
  final_context app context !! k = Some v.
Proof.
  intros Hglobals Hcontext Hprocs Hp Hafter.
  rewrite final_context_union, Hprocs.
  rewrite lookup_union_r by done. rewrite lookup_union_r by done.
  rewrite fold_left_app. simpl. rewrite fold_update_union.
  rewrite lookup_union_r by (by apply fold_update_None).
  unfold dict_update. by apply lookup_union_Some_l.
Qed.

(** A key [self] anywhere, in the caller's keyword arguments, in the
    template globals or in a context processor's dictionary, makes [_render]
    raise [TypeError] before the template file is read, and no signal is
    sent. *)
Theorem self_key_rejected fs (template : Template value) context app sent :
  (is_Some (context !! "self")
   \/ is_Some (app_jinja_globals app !! "self")
   \/ exists p, p ∈ app_context_processors app /\ is_Some (p !! "self")) ->
  exists msg,
    _render fs template context app sent = (inl (TypeError msg), sent).
Proof.
  intros Hself.
  assert (is_Some (final_context app context !! "self")) as [v Hv].
  { rewrite final_context_union, !lookup_union_is_Some, fold_update_is_Some.
    destruct Hself as [? | [? | ?]]; auto. }
  rewrite _render_unfold, Hv. simpl. eauto.
Qed.

(** ** The lookup slot and [render_template] *)

Lemma _create_lookup_any_disk fs fs' app e :
  _create_lookup fs app = inl e -> _create_lookup fs' app = inl e.
Proof.
  unfold _create_lookup, getitem.
  destruct (app_extensions app) as [exts |]; simpl; [| done].
  destruct (exts !! "pyquery"); simpl; [| done].
  destruct (app_config app !! "PYQUERY_DOCTYPE"); simpl; [| done].
  destruct (app_template_folder app); simpl; [done | discriminate ..].
Qed.

Lemma _lookup_failure fs app app' e :
  _lookup fs app = (inl e, app') ->
  app' = app
  /\ (app__pyquery_lookup app = None
      \/ app__pyquery_lookup app = Some None
         /\ _create_lookup fs app = inl e).
Proof.
  unfold _lookup.
  destruct (app__pyquery_lookup app) as [[cached |] |]; [discriminate | |].
  - destruct (_create_lookup fs app) as [e' | built]; [| discriminate].
    intros [= <- <-]. split; [done |]. right. done.
  - intros [= _ <-]. split; [done |]. by left.
Qed.

(** A [_lookup] that raises stores nothing: the application is left as it
    was, and the same call raises the same exception on any disk, so it is
    the application (its initialisation, registry, configuration or
    template folder) that must change before a lookup can be built. *)
Theorem lookup_failure_not_cached fs app app' e :
  _lookup fs app = (inl e, app') ->
  app' = app /\ forall fs', _lookup fs' app = (inl e, app).
Proof.
  intros Hlookup. pose proof Hlookup as Hcopy.
  apply _lookup_failure in Hcopy as [-> Hwhy]. split; [done |].
  intros fs'. destruct Hwhy as [Hslot | [Hslot Hcreate]].
  - unfold _lookup in *. rewrite Hslot in *. done.
  - unfold _lookup. rewrite Hslot.
    by rewrite (_create_lookup_any_disk _ fs' _ _ Hcreate).
Qed.

Lemma get_template_registry fs (self : TemplateLookup) (a b : App value) name :
  app_extensions a = app_extensions b ->
  get_template fs self a name = get_template fs self b name.
Proof. intros Hexts. unfold get_template. by rewrite Hexts. Qed.

Lemma _render_reads fs (template : Template value) context (a b : App value)
    sent :
  app_id a = app_id b ->
  app_jinja_globals a = app_jinja_globals b ->
  app_context_processors a = app_context_processors b ->
  _render fs template context a sent = _render fs template context b sent.
Proof.
  intros Hid Hglobals Hprocs.
  unfold _render, update_template_context. by rewrite Hid, Hglobals, Hprocs.
Qed.

(** Once a lookup is cached, [render_template] no longer reads the
    application's configuration, root path, template folder or blueprints:
    two applications that hold the same cached lookup and agree on identity,
    registry, template globals and context processors render every template
    alike and send the same signals, and the application is left as it
    was. *)
Theorem render_template_once_cached fs name context (a b : App value)
    (lookup : TemplateLookup) sent0 :
  app__pyquery_lookup a = Some (Some lookup) ->
  app__pyquery_lookup b = Some (Some lookup) ->
  app_id a = app_id b ->
  app_extensions a = app_extensions b ->
  app_jinja_globals a = app_jinja_globals b ->
  app_context_processors a = app_context_processors b ->
  fst (render_template fs name context {| top := Some a; sent := sent0 |})
  = fst (render_template fs name context {| top := Some b; sent := sent0 |})
  /\ sent (snd (render_template fs name context
                  {| top := Some a; sent := sent0 |}))
     = sent (snd (render_template fs name context
                    {| top := Some b; sent := sent0 |}))
  /\ top (snd (render_template fs name context
                 {| top := Some a; sent := sent0 |})) = Some a.
Proof.
  intros Ha Hb Hid Hexts Hglobals Hprocs. unfold render_template. simpl.
  rewrite (_lookup_hit fs a lookup Ha), (_lookup_hit fs b lookup Hb).
  rewrite (get_template_registry fs lookup a b name Hexts).
  destruct (get_template fs lookup b name) as [e | template]; [done |].
  rewrite (_render_reads fs template context a b sent0 Hid Hglobals Hprocs).
  by destruct (_render fs template context b sent0).
Qed.

(** What [render_template] leaves on the application: without an active
    context it raises [AttributeError] and changes nothing; when the lookup
    cannot be obtained it raises that exception and changes nothing; and
    when the lookup is obtained the application keeps it, whether the
    template is then resolved and rendered or not, and no earlier signal is
    dropped. *)
Theorem render_template_lookup_state fs name context (w : World value) :
  (top w = None ->
   exists msg, render_template fs name context w = (inl (AttributeError msg), w))
  /\ (forall app app' e,
       top w = Some app ->
       _lookup fs app = (inl e, app') ->
       render_template fs name context w
       = (inl e, {| top := Some app; sent := sent w |}))
  /\ (forall app app' lookup,
       top w = Some app ->
       _lookup fs app = (inr lookup, app') ->
       top (snd (render_template fs name context w)) = Some app'
       /\ app__pyquery_lookup app' = Some (Some lookup)
       /\ exists new, sent (snd (render_template fs name context w))
                      = (sent w ++ new)%list).
Proof.
  unfold render_template. split; [| split].
  - intros ->. eauto.
  - intros app app' e -> Hlookup. rewrite Hlookup.
    by apply _lookup_failure in Hlookup as [-> _].
  - intros app app' lookup -> Hlookup. rewrite Hlookup.
    assert (app__pyquery_lookup app' = Some (Some lookup)) as Hslot.
    { unfold _lookup in Hlookup.
      destruct (app__pyquery_lookup app) as [[cached |] |] eqn:Happ.
      - by injection Hlookup as <- <-.
      - destruct (_create_lookup fs app); [discriminate |].
        by injection Hlookup as <- <-.
      - discriminate. }
    destruct (get_template fs lookup app' name) as [e | template]; simpl.
    + repeat split; [done |]. exists []. by rewrite app_nil_r.
    + rewrite _render_unfold. simpl.
      destruct (match final_context app' context !! "self" with
                | Some _ => _ | None => _ end) as [e | bytes]; simpl.
      * repeat split; [done |]. exists []. by rewrite app_nil_r.
      * repeat split; [done |]. eauto.
Qed.

End Further.

(** * The further properties on the shop application *)

Lemma init_app_registers_witness :
  exists self' app' exts',
    init_app Shop.import_module Shop.fresh Cases.busy "renderer"
    = (inr tt, (self', app'))
    /\ app_extensions app' = Some exts'
    /\ exts' !! "pyquery" = Some self'
    /\ exts' !! "sqlalchemy" = Some Shop.fresh
    /\ app_config app' !! "PYQUERY_DOCTYPE" = Some "custom-doctype"
    /\ app_config app' !! "DEBUG" = Some "1"
    /\ app__pyquery_lookup app' = Some None.
Proof.
  destruct (@init_app_registers string Shop.import_module Shop.fresh
              Cases.busy "renderer" Shop.renderer eq_refl eq_refl)
    as (self' & app' & exts' & Hinit & _ & Hexts & Hpq & Hother & Hkeep & _
        & Hslot & _).
  exists self', app', exts'. repeat split; try done.
  - rewrite Hother by discriminate. reflexivity.
  - apply Hkeep. reflexivity.
  - apply Hkeep. reflexivity.
Defined.

Lemma init_app_import_failure_witness :
  exists self',
    init_app Shop.import_module Shop.fresh Shop.app "missing"
    = (inl (ImportError "No module named shop.missing"), (self', Shop.app))
    /\ init_app Shop.import_module self' Shop.app "renderer"
       = (inl (RuntimeError
            "Cannot call init_app when app argument was provided to PyQueryTemplates constructor."),
          (self', Shop.app)).
Proof.
  destruct (@init_app_import_failure string Shop.import_module Shop.fresh
              Shop.app "missing"
              (ImportError "No module named shop.missing") eq_refl eq_refl)
    as (self' & Hinit & _ & _ & _ & Hlater).
  exists self'. split; [exact Hinit | apply Hlater].
Defined.

Lemma lookup_after_init_app_witness :
  exists self' app' lookup,
    init_app Shop.import_module Shop.fresh Cases.busy "renderer"
    = (inr tt, (self', app'))
    /\ @_lookup string Shop.disk app'
       = (inr lookup, set__pyquery_lookup app' (Some lookup))
    /\ tl_kwargs lookup = {[ "doctype" := "custom-doctype" ]}
    /\ tl_directories lookup = ["/srv/shop/templates"].
Proof.
  destruct (@lookup_after_init_app string Shop.import_module Shop.fresh
              Cases.busy "renderer" Shop.renderer Shop.disk eq_refl eq_refl)
    as (self' & app' & lookup & Hinit & Hlookup & _ & Hkwargs & Hdirs);
    [discriminate |].
  exists self', app', lookup. repeat split; done.
Defined.

Lemma get_template_sound_witness :
  exists d,
    "/srv/shop/admin/templates/report.html" = os_path_join d "report.html"
    /\ os_path_isfile Shop.disk "/srv/shop/admin/templates/report.html" = true
    /\ mod_dict Shop.renderer !! "report" = Some Shop.index.
Proof.
  destruct (@get_template_sound string Shop.libraries Shop.interpreter
              Shop.disk Shop.lookup Shop.app1 "report"
              {| tpl_path := "/srv/shop/admin/templates/report.html";
                 tpl_renderer := Shop.index;
                 tpl_kwargs := tl_kwargs Shop.lookup |} eq_refl)
    as (exts & pq & before & d & after & Hexts & Hpq & Hfunc & Hne & Hmodule
        & Hnone & Hdirs & Hbefore & Hpath & Hexists & Hfile & Hkwargs).
  exists d. split; [exact Hpath |]. split; [exact Hfile |].
  apply Hmodule. vm_compute in Hexts. injection Hexts as <-.
  vm_compute in Hpq. injection Hpq as <-. reflexivity.
Defined.

Lemma template_path_ends_with_name_witness :
  tpl_path {| tpl_path := "/srv/shop/templates/index.html";
              tpl_renderer := Shop.index;
              tpl_kwargs := tl_kwargs Cases.elsewhere |}
  = "/srv/shop/templates/index" +:+ ".html"
  /\ tl_directories Cases.elsewhere = ["/srv/shop/blog/themes"].
Proof.
  split; [| reflexivity].
  apply (@template_path_ends_with_name string Shop.libraries
           Shop.interpreter Shop.disk Cases.elsewhere Cases.odd_app
           "/srv/shop/templates/index");
    reflexivity.
Defined.

Lemma created_directories_witness :
  os_path_isdir Shop.disk "/srv/shop/blog/themes" = true
  /\ In "/srv/shop/blog/themes"
       (resolved (app_root_path Shop.app1) (app_template_folder Shop.app1)
        ++ concat (map (fun b => blueprint_folders (snd b))
                     (default [] (app_blueprints Shop.app1))))%list.
Proof.
  destruct (@created_directories string Shop.libraries Shop.interpreter
              Shop.disk Shop.app1 Shop.lookup eq_refl) as [Hdirs _].
  destruct (proj1 (Hdirs "/srv/shop/blog/themes")) as [Hin Hdir].
  - simpl. right. right. left. reflexivity.
  - split; [exact Hdir | exact Hin].
Defined.

Lemma render_success_witness :
  exists root,
    tag root = "html"
    /\ "<!DOCTYPE html><html>" = tostring (Libraries := Shop.libraries) root
                                   "<!DOCTYPE html>".
Proof.
  destruct (@render_success string Shop.libraries Shop.disk
              (Shop.template Shop.index) Shop.caller "<!DOCTYPE html><html>"
              eq_refl)
    as (source & parsed & f & root & doctype & _ & _ & _ & _ & Htag & Hdoctype
        & Hbytes).
  vm_compute in Hdoctype. injection Hdoctype as <-.
  exists root. split; [exact Htag | exact Hbytes].
Defined.

Lemma context_processor_layer_witness :
  final_context Cases.layered Shop.caller !! "user" = Some "admin".
Proof.
  apply (@context_processor_layer string Cases.layered Shop.caller "user"
           "admin" [ {[ "user" := "guest" ]} ]
           (<["user" := "admin"]> {[ "site" := "intranet" ]}) []);
    try reflexivity.
  intros q Hq. inversion Hq.
Defined.

Lemma self_key_rejected_witness :
  exists msg,
    @_render string Shop.libraries Shop.wiped (Shop.template Shop.index)
      Cases.selfish Shop.app1 []
    = (inl (TypeError msg), []).
Proof.
  apply (@self_key_rejected string Shop.libraries Shop.wiped
           (Shop.template Shop.index) Cases.selfish Shop.app1 []).
  left. exists "me". reflexivity.
Defined.

Lemma lookup_failure_not_cached_witness :
  @_lookup string Shop.disk (set__pyquery_lookup Shop.app None)
  = (inl (KeyError "pyquery"), set__pyquery_lookup Shop.app None).
Proof.
  apply (@lookup_failure_not_cached string Shop.wiped
           (set__pyquery_lookup Shop.app None)
           (set__pyquery_lookup Shop.app None) (KeyError "pyquery")).
  reflexivity.
Defined.

Lemma render_template_once_cached_witness :
  fst (@render_template string Shop.libraries Shop.interpreter Shop.disk "index" Shop.caller
         {| top := Some Cases.reconfigured; sent := [] |})
  = inr "<!DOCTYPE html><html>".
Proof.
  destruct (@render_template_once_cached string Shop.libraries
              Shop.interpreter Shop.disk
              "index" Shop.caller Shop.app2 Cases.reconfigured Shop.lookup []
              eq_refl eq_refl eq_refl eq_refl eq_refl eq_refl)
    as (Hsame & _ & _).
  rewrite <- Hsame. vm_compute. reflexivity.
Defined.

(** With no module on the registered object, [getattr] asks [None] itself:
    a name that is no attribute of [None] is a missing renderer, and for one
    that is, the directories are searched. *)
Example get_template_without_module :
  @get_template string Shop.libraries Shop.interpreter Shop.disk Shop.lookup
    Cases.unbound_app "index"
  = inl (AttributeError "No such renderer None in None")
  /\ @get_template string Shop.libraries Shop.interpreter Shop.disk Shop.lookup
       Cases.unbound_app "__class__"
     = inl (FileNotFoundError "No such template '__class__.html'").
Proof. split; vm_compute; reflexivity. Qed.
